(** * gcp-iam-member-report: a shallow embedding of [iam_member_report.py]

    The script validates an organization, lists every project, walks the
    folder hierarchy under the organization (or under one folder), flattens
    the IAM policy of every node it meets into CSV rows and writes them out.

    The embedding follows [run] statement by statement.  The Cloud Resource
    Manager API is an oracle ([Client]) that answers each executed request,
    possibly differently each time it is asked (the answer depends on the
    number of requests executed before).  The local variables of [run]
    ([_ERROR], [final_results], [folders], [stack]) and everything the
    process shows to the outside (standard output, error stream, executed
    requests, the output file) live in an explicit [State]; Python
    exceptions and the [while] loops whose length the API decides are
    made explicit in the result type [res]. *)

From stdpp Require Import gmap strings list.
From Stdlib Require Import Ascii String ZArith Lia.

Local Open Scope string_scope.
Local Open Scope list_scope.

(** ** Strings as Python uses them *)

Module Py.

(** [s.split(sep)] for a one-character separator: one more piece than
    there are separators in [s]. *)
Fixpoint split (sep : ascii) (s : string) : list string :=
  match s with
  | EmptyString => [EmptyString]
  | String c s' =>
      if Ascii.eqb c sep then EmptyString :: split sep s'
      else match split sep s' with
           | p :: ps => String c p :: ps
           | [] => [String c EmptyString]
           end
  end.

(** Number of occurrences of a character. *)
Fixpoint count (sep : ascii) (s : string) : nat :=
  match s with
  | EmptyString => 0
  | String c s' => (if Ascii.eqb c sep then 1 else 0) + count sep s'
  end.

Definition lower_ascii (c : ascii) : ascii :=
  let n := nat_of_ascii c in
  if (65 <=? n)%nat && (n <=? 90)%nat then ascii_of_nat (n + 32) else c.

(** [s.lower()] on the ASCII letters. *)
Fixpoint lower (s : string) : string :=
  match s with
  | EmptyString => EmptyString
  | String c s' => String (lower_ascii c) (lower s')
  end.

(** Truth value of a [str]-or-[None] argument, as in [if folder_id:]. *)
Definition truthy (o : option string) : bool :=
  match o with
  | Some (String _ _) => true
  | _ => false
  end.

(** [str(x)] inside an f-string, for a [str]-or-[None] value. *)
Definition str (o : option string) : string :=
  match o with
  | Some s => s
  | None => "None"
  end.

Definition dquote : string := String (ascii_of_nat 34) EmptyString.

End Py.

(** ** The data the API returns *)

(** One element of [iam['bindings']]: [binding['role']] is read with a
    subscript, [binding.get('members', [])] with a default. *)
Record Binding := mkBinding {
  role : string;
  members : option (list string)
}.

(** The answer of a [getIamPolicy] call: [iam.get('bindings', [])]. *)
Record Policy := mkPolicy {
  bindings : option (list Binding)
}.

(** [project['parent']]: a type tag and [parent.get('id')]. *)
Record Parent := mkParent {
  parent_type : string;
  parent_id : option string
}.

(** One element of the project listing; [project.get('parent', {})]. *)
Record Project := mkProject {
  projectId : string;
  lifecycleState : string;
  parent : option Parent
}.

(** One element of a folder listing: [folder['name']]. *)
Record Folder := mkFolder {
  folder_name : string
}.

(** [org['name']]. *)
Record Organization := mkOrganization {
  org_name : string
}.

Record ProjectsPage := mkProjectsPage {
  pp_projects : option (list Project);
  pp_nextPageToken : option string
}.

Record FoldersPage := mkFoldersPage {
  fp_folders : option (list Folder);
  fp_nextPageToken : option string
}.

(** One line of the report:
    [(member, member_type, role, org_id, folder_id, project_id)]. *)
Record Row := mkRow {
  r_member : string;
  r_member_type : string;
  r_role : string;
  r_org_id : string;
  r_folder_id : string;
  r_project_id : string
}.

(** ** Requests, and the API as an oracle *)

Inductive request :=
| organizations_get (name : string)
| projects_list (pageToken : option string)
| organizations_getIamPolicy (resource : string)
| folders_list (parent_name : string) (pageToken : option string)
| folders_getIamPolicy (resource : string)
| projects_getIamPolicy (resource : string).

(** What [request.execute()] does: an answer, or an [HttpError] whose text
    is [e]. *)
Inductive http (T : Type) :=
| Ok (v : T)
| Err (e : string).
Arguments Ok {T} v.
Arguments Err {T} e.

(** The first argument of every field is the number of requests the run has
    executed so far: the same request may fail now and succeed later. *)
Record Client := mkClient {
  api_organizations_get : nat -> string -> http Organization;
  api_projects_list : nat -> option string -> http ProjectsPage;
  api_organizations_getIamPolicy : nat -> string -> http Policy;
  api_folders_list : nat -> string -> option string -> http FoldersPage;
  api_folders_getIamPolicy : nat -> string -> http Policy;
  api_projects_getIamPolicy : nat -> string -> http Policy
}.

(** [list_next]: no further request without a non-empty [nextPageToken]. *)
Definition list_next (tok : option string) : option string :=
  if Py.truthy tok then tok else None.

(** ** Exceptions, and what the process does that can be seen from outside *)

Inductive exn :=
| HttpError (e : string)
| ValueError
| IndexError
| SystemExit (msg : string).

Inductive event :=
| Stdout (line : string)
| Stderr (line : string)
| Call (req : request) (error : option string)
| OpenFile (filename : string)
| WriteRows (header : list string) (rows : list Row)
| Traceback (e : exn).

(** ** The state of [run] *)

Record State := mkState {
  _ERROR : option bool;
  final_results : list Row;
  folders : gset string;
  stack : list string;
  log : list event;
  clock : nat
}.

Definition initial : State :=
  {| _ERROR := None; final_results := []; folders := ∅; stack := [];
     log := []; clock := 0 |}.

Definition set_ERROR (v : option bool) (st : State) : State :=
  {| _ERROR := v; final_results := final_results st; folders := folders st;
     stack := stack st; log := log st; clock := clock st |}.

Definition set_final_results (v : list Row) (st : State) : State :=
  {| _ERROR := _ERROR st; final_results := v; folders := folders st;
     stack := stack st; log := log st; clock := clock st |}.

Definition set_folders (v : gset string) (st : State) : State :=
  {| _ERROR := _ERROR st; final_results := final_results st; folders := v;
     stack := stack st; log := log st; clock := clock st |}.

Definition set_stack (v : list string) (st : State) : State :=
  {| _ERROR := _ERROR st; final_results := final_results st;
     folders := folders st; stack := v; log := log st; clock := clock st |}.

Definition emit (e : event) (st : State) : State :=
  {| _ERROR := _ERROR st; final_results := final_results st;
     folders := folders st; stack := stack st; log := log st ++ [e];
     clock := clock st |}.

Definition tick (st : State) : State :=
  {| _ERROR := _ERROR st; final_results := final_results st;
     folders := folders st; stack := stack st; log := log st;
     clock := S (clock st) |}.

(** ** Computations: state, exceptions, and loops that may not end *)

Inductive res (A : Type) :=
| Ret (a : A)
| Raise (e : exn)
| OutOfFuel.
Arguments Ret {A} a.
Arguments Raise {A} e.
Arguments OutOfFuel {A}.

Definition M (A : Type) : Type := State -> res A * State.

Definition ret {A} (a : A) : M A := fun st => (Ret a, st).

Definition bind {A B} (m : M A) (k : A -> M B) : M B :=
  fun st =>
    match m st with
    | (Ret a, st') => k a st'
    | (Raise e, st') => (Raise e, st')
    | (OutOfFuel, st') => (OutOfFuel, st')
    end.

Declare Scope run_scope.
Delimit Scope run_scope with run.
Notation "x <- m ;; k" := (bind m (fun x => k))
  (at level 100, m at next level, right associativity) : run_scope.
Notation "m ;; k" := (bind m (fun _ => k))
  (at level 100, right associativity) : run_scope.
Local Open Scope run_scope.

Definition raise {A} (e : exn) : M A := fun st => (Raise e, st).
Definition out_of_fuel {A} : M A := fun st => (OutOfFuel, st).
Definition get : M State := fun st => (Ret st, st).
Definition modify (f : State -> State) : M unit := fun st => (Ret tt, f st).

(** [print(line)] and [print(line, file=sys.stderr)]. *)
Definition print (line : string) : M unit := modify (emit (Stdout line)).
Definition print_stderr (line : string) : M unit := modify (emit (Stderr line)).

(** [request.execute()]: the request and how it ended are recorded. *)
Definition execute {T} (req : request) (answer : nat -> http T) : M T :=
  fun st =>
    match answer (clock st) with
    | Ok v => (Ret v, tick (emit (Call req None) st))
    | Err e => (Raise (HttpError e), tick (emit (Call req (Some e)) st))
    end.

(** [try: body / except HttpError as e: handler / else: orelse]. *)
Definition try_except_HttpError {A B} (body : M A) (handler : string -> M B)
    (orelse : A -> M B) : M B :=
  fun st =>
    match body st with
    | (Ret a, st') => orelse a st'
    | (Raise (HttpError e), st') => handler e st'
    | (Raise e, st') => (Raise e, st')
    | (OutOfFuel, st') => (OutOfFuel, st')
    end.

(** [for x in xs: body x]. *)
Fixpoint for_each {A} (xs : list A) (body : A -> M unit) : M unit :=
  match xs with
  | [] => ret tt
  | x :: xs' => body x ;; for_each xs' body
  end.

(** ** [run] *)

Definition org_row (org_id mem typ rol : string) : Row :=
  mkRow mem typ rol org_id EmptyString EmptyString.

Definition folder_row (fid mem typ rol : string) : Row :=
  mkRow mem typ rol EmptyString fid EmptyString.

Definition project_row (pid mem typ rol : string) : Row :=
  mkRow mem typ rol EmptyString EmptyString pid.

(** [typ, mem = pieces]: anything but two pieces is a [ValueError]. *)
Definition unpack2 (pieces : list string) : M (string * string) :=
  match pieces with
  | [typ; mem] => ret (typ, mem)
  | _ => raise ValueError
  end.

(** [pieces[i]]: an [IndexError] out of range. *)
Definition subscript (pieces : list string) (i : nat) : M string :=
  match nth_error pieces i with
  | Some s => ret s
  | None => raise IndexError
  end.

(** [final_results.append(r)]. *)
Definition append_result (r : Row) : M unit :=
  modify (fun st => set_final_results (final_results st ++ [r]) st).

(** The body of the inner loop, written three times in [run]:
    [typ, mem = member.split(':')], then the row is built and appended. *)
Definition flatten_member (mk : string -> string -> string -> Row)
    (binding : Binding) (member : string) : M unit :=
  p <- unpack2 (Py.split ":" member) ;;
  append_result (mk (snd p) (fst p) (role binding)).

(** The two nested [for] loops over [iam.get('bindings', [])] and
    [binding.get('members', [])]; [mk] is the row of the place the policy
    hangs on. *)
Definition flatten (iam : Policy) (mk : string -> string -> string -> Row)
    : M unit :=
  for_each (default [] (bindings iam)) (fun binding =>
    for_each (default [] (members binding)) (flatten_member mk binding)).

(** The test of the project loop: active, and the parent id is the
    organization's or one of the walked folders'.  A project without a
    parent, or a parent without an id, has [parent.get('id')] equal to
    [None], which is neither. *)
Definition parent_get_id (project : Project) : option string :=
  match parent project with
  | Some p => parent_id p
  | None => None
  end.

Definition selected (org_id : string) (fs : gset string) (project : Project)
    : bool :=
  bool_decide (Py.lower (lifecycleState project) = "active")
  && match parent_get_id project with
     | Some i => bool_decide (i = org_id) || bool_decide (i ∈ fs)
     | None => false
     end.

Definition header : list string :=
  ["member"; "member_type"; "role"; "org_id"; "folder_id"; "project_id"].

Section Run.

Variable api : Client.

(** [while request:] over the pages of the project listing. *)
Fixpoint projects_loop (fuel : nat) (tok : option string)
    (projects : list Project) : M (list Project) :=
  match fuel with
  | 0 => out_of_fuel
  | S fuel' =>
      print "Getting projects..." ;;
      response <- execute (projects_list tok)
                    (fun t => api_projects_list api t tok) ;;
      let projects' := projects ++ default [] (pp_projects response) in
      match list_next (pp_nextPageToken response) with
      | Some tok' => projects_loop fuel' (Some tok') projects'
      | None => ret projects'
      end
  end.

(** The organization's own policy, fetched when the parent is the
    organization. *)
Definition org_policy (org : Organization) (org_id : string)
    (folder_id : option string) : M unit :=
  try_except_HttpError
    (execute (organizations_getIamPolicy (org_name org))
       (fun t => api_organizations_getIamPolicy api t (org_name org)))
    (fun e =>
       modify (set_ERROR (Some true)) ;;
       print_stderr ("Error getting org folder " +:+ Py.dquote
                     +:+ Py.str folder_id +:+ Py.dquote
                     +:+ " IAM policy: " +:+ e))
    (fun iam => flatten iam (org_row org_id)).

(** The body of [for folder in response.get('folders', [])].  The head of
    [stack] is the last element of the Python list. *)
Definition visit_folder (folder : Folder) : M unit :=
  let fname := folder_name folder in
  fid <- subscript (Py.split "/" fname) 1 ;;
  modify (fun st => set_stack (folder_name folder :: stack st) st) ;;
  modify (fun st => set_folders ({[fid]} ∪ folders st) st) ;;
  try_except_HttpError
    (execute (folders_getIamPolicy (folder_name folder))
       (fun t => api_folders_getIamPolicy api t (folder_name folder)))
    (fun e =>
       modify (set_ERROR (Some true)) ;;
       print ("Error getting folder " +:+ Py.dquote +:+ fid
              +:+ " IAM: " +:+ e))
    (fun iam => flatten iam (folder_row fid)).

(** The inner [while request:] over the pages of one folder listing.  The
    [continue] of the handler goes back to the test of this loop with
    [request] unchanged. *)
Fixpoint list_loop (fuel : nat) (current : string) (tok : option string)
    : M unit :=
  match fuel with
  | 0 => out_of_fuel
  | S fuel' =>
      print "Getting folders..." ;;
      try_except_HttpError
        (execute (folders_list current tok)
           (fun t => api_folders_list api t current tok))
        (fun e =>
           modify (set_ERROR (Some true)) ;;
           print_stderr ("Error getting child folders of " +:+ Py.dquote
                         +:+ current +:+ Py.dquote +:+ ": " +:+ e) ;;
           list_loop fuel' current tok)
        (fun response =>
           for_each (default [] (fp_folders response)) visit_folder ;;
           match list_next (fp_nextPageToken response) with
           | Some tok' => list_loop fuel' current (Some tok')
           | None => ret tt
           end)
  end.

(** [while stack:]. *)
Fixpoint walk (fuel : nat) : M unit :=
  match fuel with
  | 0 => out_of_fuel
  | S fuel' =>
      st <- get ;;
      match stack st with
      | [] => ret tt
      | current :: rest =>
          modify (set_stack rest) ;;
          list_loop fuel' current None ;;
          walk fuel'
      end
  end.

(** The body of [for project in projects]. *)
Definition process_project (org_id : string) (project : Project) : M unit :=
  let pid := projectId project in
  st <- get ;;
  if selected org_id (folders st) project then
    try_except_HttpError
      (execute (projects_getIamPolicy pid)
         (fun t => api_projects_getIamPolicy api t pid))
      (fun e =>
         modify (set_ERROR (Some true)) ;;
         print_stderr ("Error getting project IAM: " +:+ e))
      (fun iam => flatten iam (project_row pid))
  else ret tt.

(** The [with outfile.open() as f] block. *)
Definition write_report (filename : string) : M unit :=
  print ("Writing file " +:+ Py.dquote +:+ filename +:+ Py.dquote) ;;
  modify (emit (OpenFile filename)) ;;
  st <- get ;;
  modify (emit (WriteRows header (final_results st))).

Definition caveat : string :=
  "There were errors while generating the report; it may not be completely accurate.".

(** [if _ERROR:]. *)
Definition is_true (v : option bool) : bool :=
  match v with
  | Some true => true
  | _ => false
  end.

(** From the project listing to the end of the project loop: everything
    [run] fetches once the organization lookup has succeeded. *)
Definition collect (fuel : nat) (org : Organization) (org_id : string)
    (folder_id : option string) : M unit :=
  projects <- projects_loop fuel None [] ;;
  modify (set_final_results []) ;;
  parent_node <-
    (if Py.truthy folder_id
     then ret ("folders/" +:+ Py.str folder_id)
     else (org_policy org org_id folder_id ;; ret (org_name org))) ;;
  modify (set_folders ∅) ;;
  modify (set_stack [parent_node]) ;;
  walk fuel ;;
  print "Processing results..." ;;
  for_each projects (process_project org_id).

(** From [print(f'Writing file ...')] to [return _ERROR]. *)
Definition report (outfile : string) : M (option bool) :=
  write_report outfile ;;
  print "Done." ;;
  st <- get ;;
  (if is_true (_ERROR st) then print caveat else ret tt) ;;
  ret (_ERROR st).

Definition run (fuel : nat) (org_id : string) (folder_id : option string)
    (outfile : string) : M (option bool) :=
  modify (set_ERROR None) ;;
  print "Validating organization..." ;;
  try_except_HttpError
    (execute (organizations_get ("organizations/" +:+ org_id))
       (fun t => api_organizations_get api t ("organizations/" +:+ org_id)))
    (fun e => raise (SystemExit ("Error getting organization: " +:+ e)))
    (fun org => collect fuel org org_id folder_id ;; report outfile).

(** [sys.exit(run(...))] and the end of the process: [None] is status 0,
    [True] status 1; a [SystemExit] carrying a message prints it on the
    error stream and any other exception that reaches the top prints a
    traceback there, both with status 1.  A run that does not end has no
    status. *)
Definition main (fuel : nat) (org_id : string) (folder_id : option string)
    (outfile : string) : option Z * State :=
  match run fuel org_id folder_id outfile initial with
  | (Ret v, st) => (Some (if is_true v then 1%Z else 0%Z), st)
  | (Raise (SystemExit msg), st) => (Some 1%Z, emit (Stderr msg) st)
  | (Raise e, st) => (Some 1%Z, emit (Traceback e) st)
  | (OutOfFuel, st) => (None, st)
  end.

End Run.

(** ** Notions the properties are stated with *)

Definition active (project : Project) : Prop :=
  Py.lower (lifecycleState project) = "active".

(** The join as the specification words it: active, and the parent is a
    visited folder, or it is the organization and no folder restriction
    was given. *)
Definition selected_spec (org_id : string) (restricted : bool)
    (fs : gset string) (project : Project) : Prop :=
  active project
  /\ ((exists i, parent_get_id project = Some i /\ i ∈ fs)
      \/ (parent_get_id project = Some org_id /\ restricted = false)).

(** What the test of the project loop computes. *)
Definition selected_code (org_id : string) (fs : gset string)
    (project : Project) : Prop :=
  active project
  /\ exists i, parent_get_id project = Some i /\ (i = org_id \/ i ∈ fs).

(** A member string [type:identifier] with exactly one colon. *)
Definition well_formed_member (member : string) : Prop :=
  Py.count ":" member = 1.

Definition well_formed_policy (iam : Policy) : Prop :=
  Forall (fun binding =>
            Forall well_formed_member (default [] (members binding)))
         (default [] (bindings iam)).


(** The sum over the bindings of the number of members. *)
Definition member_count (iam : Policy) : nat :=
  sum_list (map (fun binding => List.length (default [] (members binding)))
                (default [] (bindings iam))).




(** The requests whose failure [run] handles and carries on from. *)
Definition recoverable (req : request) : bool :=
  match req with
  | organizations_getIamPolicy _ | folders_list _ _
  | folders_getIamPolicy _ | projects_getIamPolicy _ => true
  | organizations_get _ | projects_list _ => false
  end.

Definition recoverable_failure (ev : event) : bool :=
  match ev with
  | Call req (Some _) => recoverable req
  | _ => false
  end.

(** The two states of a run, read off [_ERROR]. *)
Definition Clean (st : State) : Prop := _ERROR st = None.
Definition Degraded (st : State) : Prop := _ERROR st = Some true.

(** [_ERROR] is [True] exactly when a recoverable failure has happened. *)
Definition flag_tracks_failures (st : State) : Prop :=
  _ERROR st = if existsb recoverable_failure (log st) then Some true else None.

(** A property of the state that a computation keeps, however it ends. *)
Definition preserves {A} (P : State -> Prop) (m : M A) : Prop :=
  forall st, P st -> P (snd (m st)).

(** The rows a node of each kind may contribute all satisfy [good_row]. *)
Definition good_org (good_row : Row -> Prop) (org_id : string) : Prop :=
  forall mem typ rol, good_row (org_row org_id mem typ rol).

Definition good_folder (good_row : Row -> Prop) (folder : Folder) : Prop :=
  forall fid mem typ rol,
    nth_error (Py.split "/" (folder_name folder)) 1 = Some fid ->
    good_row (folder_row fid mem typ rol).

Definition good_project (good_row : Row -> Prop) (project : Project) : Prop :=
  forall mem typ rol, good_row (project_row (projectId project) mem typ rol).

(** What one failed listing attempt leaves behind: the progress line, the
    failed request, the flag and the message on the error stream. *)
Definition failed_attempt (current : string) (tok : option string)
    (e : string) (st : State) : State :=
  emit (Stderr ("Error getting child folders of " +:+ Py.dquote
                +:+ current +:+ Py.dquote +:+ ": " +:+ e))
    (set_ERROR (Some true)
       (tick (emit (Call (folders_list current tok) (Some e))
                (emit (Stdout "Getting folders...") st)))).

Definition is_policy_call (ev : event) : bool :=
  match ev with
  | Call (organizations_getIamPolicy _) _
  | Call (folders_getIamPolicy _) _
  | Call (projects_getIamPolicy _) _ => true
  | _ => false
  end.

Definition touches_file (ev : event) : bool :=
  match ev with
  | OpenFile _ | WriteRows _ _ => true
  | _ => false
  end.

(** [n] failed attempts in a row. *)
Fixpoint failed_attempts (n : nat) (current : string) (tok : option string)
    (e : string) (st : State) : State :=
  match n with
  | 0 => st
  | S n' => failed_attempts n' current tok e (failed_attempt current tok e st)
  end.

#[global] Instance request_eq_dec : EqDecision request.
Proof. solve_decision. Defined.

(** The request has been executed at least once. *)
Definition requested (req : request) (st : State) : bool :=
  existsb (fun ev => match ev with
                     | Call r _ => bool_decide (r = req)
                     | _ => false
                     end) (log st).

(** Something was written on the error stream. *)
Definition on_stderr (ev : event) : bool :=
  match ev with
  | Stderr _ | Traceback _ => true
  | _ => false
  end.

(** The output file has not been opened or written so far. *)
Definition no_file (st : State) : Prop :=
  existsb touches_file (log st) = false.

(** ** Concrete runs *)

Module Scenario.

Definition policy (l : list (string * list string)) : Policy :=
  mkPolicy (Some (map (fun p => mkBinding (fst p) (Some (snd p))) l)).

Definition viewer (member : string) : Policy :=
  policy [("roles/viewer", [member])].

Definition no_folders : http FoldersPage := Ok (mkFoldersPage None None).

Definition one_page (ps : list Project) : http ProjectsPage :=
  Ok (mkProjectsPage (Some ps) None).

(** An active project whose parent is the organization 123. *)
Definition p_org : Project :=
  mkProject "p1" "ACTIVE" (Some (mkParent "organization" (Some "123"))).

(** An active project whose parent is the folder 999. *)
Definition p_999 : Project :=
  mkProject "p2" "ACTIVE" (Some (mkParent "folder" (Some "999"))).

(** An active project whose record has no parent. *)
Definition p_orphan : Project := mkProject "p3" "ACTIVE" None.

(** Organization 123 with one project directly under it and no folder
    below folder 999. *)
Definition org_project : Client :=
  {| api_organizations_get := fun _ n => Ok (mkOrganization n);
     api_projects_list := fun _ _ => one_page [p_org];
     api_organizations_getIamPolicy := fun _ _ => Ok (viewer "user:o@example.com");
     api_folders_list := fun _ _ _ => no_folders;
     api_folders_getIamPolicy := fun _ _ => Ok (mkPolicy None);
     api_projects_getIamPolicy := fun _ _ => Ok (viewer "user:b@example.com") |}.

(** Folder 999 has a policy of its own, no child folder, and one project
    directly under it. *)
Definition folder_project : Client :=
  {| api_organizations_get := fun _ n => Ok (mkOrganization n);
     api_projects_list := fun _ _ => one_page [p_999];
     api_organizations_getIamPolicy := fun _ _ => Ok (mkPolicy None);
     api_folders_list := fun _ _ _ => no_folders;
     api_folders_getIamPolicy := fun _ _ => Ok (viewer "user:f@example.com");
     api_projects_getIamPolicy := fun _ _ => Ok (viewer "user:b@example.com") |}.

(** The organization has two folders, 111 and 222; listing the children
    of 222 is always refused, nothing else fails. *)
Definition sibling_refused : Client :=
  {| api_organizations_get := fun _ n => Ok (mkOrganization n);
     api_projects_list := fun _ _ =>
       one_page [mkProject "p5" "ACTIVE"
                   (Some (mkParent "folder" (Some "111")))];
     api_organizations_getIamPolicy := fun _ _ => Ok (mkPolicy None);
     api_folders_list := fun _ p _ =>
       if bool_decide (p = "organizations/123")
       then Ok (mkFoldersPage
                  (Some [mkFolder "folders/111"; mkFolder "folders/222"]) None)
       else if bool_decide (p = "folders/222") then Err "403"
       else no_folders;
     api_folders_getIamPolicy := fun _ _ => Ok (viewer "group:g@example.com");
     api_projects_getIamPolicy := fun _ _ => Ok (viewer "user:b@example.com") |}.

(** The organization has one folder, 456, whose policy cannot be read. *)
Definition folder_policy_refused : Client :=
  {| api_organizations_get := fun _ n => Ok (mkOrganization n);
     api_projects_list := fun _ _ => one_page [];
     api_organizations_getIamPolicy := fun _ _ => Ok (mkPolicy None);
     api_folders_list := fun _ p _ =>
       if bool_decide (p = "organizations/123")
       then Ok (mkFoldersPage (Some [mkFolder "folders/456"]) None)
       else no_folders;
     api_folders_getIamPolicy := fun _ _ => Err "403";
     api_projects_getIamPolicy := fun _ _ => Ok (mkPolicy None) |}.

(** The organization's policy grants a role to [allUsers]. *)
Definition all_users : Client :=
  {| api_organizations_get := fun _ n => Ok (mkOrganization n);
     api_projects_list := fun _ _ => one_page [p_org];
     api_organizations_getIamPolicy := fun _ _ => Ok (viewer "allUsers");
     api_folders_list := fun _ _ _ => no_folders;
     api_folders_getIamPolicy := fun _ _ => Ok (mkPolicy None);
     api_projects_getIamPolicy := fun _ _ => Ok (viewer "user:b@example.com") |}.

(** The organization does not exist. *)
Definition no_organization : Client :=
  {| api_organizations_get := fun _ _ => Err "404";
     api_projects_list := fun _ _ => one_page [p_org];
     api_organizations_getIamPolicy := fun _ _ => Ok (viewer "user:o@example.com");
     api_folders_list := fun _ _ _ => no_folders;
     api_folders_getIamPolicy := fun _ _ => Ok (mkPolicy None);
     api_projects_getIamPolicy := fun _ _ => Ok (viewer "user:b@example.com") |}.

(** Organization 123 with folder 456 under it; a policy on each node, one
    project under the organization and one under the folder. *)
Definition small_org : Client :=
  {| api_organizations_get := fun _ n => Ok (mkOrganization n);
     api_projects_list := fun _ _ =>
       one_page [p_org;
                 mkProject "p4" "ACTIVE"
                   (Some (mkParent "folder" (Some "456")))];
     api_organizations_getIamPolicy := fun _ _ => Ok (viewer "user:o@example.com");
     api_folders_list := fun _ p _ =>
       if bool_decide (p = "organizations/123")
       then Ok (mkFoldersPage (Some [mkFolder "folders/456"]) None)
       else no_folders;
     api_folders_getIamPolicy := fun _ _ => Ok (viewer "group:g@example.com");
     api_projects_getIamPolicy := fun _ _ => Ok (viewer "user:b@example.com") |}.

End Scenario.

(** ** The rest of the script: notions for its other properties *)

(** The row one member string gives; the pieces are those of
    [member.split(':')]. *)
Definition member_row (mk : string -> string -> string -> Row)
    (binding : Binding) (member : string) : Row :=
  let pieces := Py.split ":" member in
  mk (nth 1 pieces EmptyString) (nth 0 pieces EmptyString) (role binding).

(** The rows of a policy, binding after binding and member after member. *)
Definition policy_rows (mk : string -> string -> string -> Row)
    (iam : Policy) : list Row :=
  flat_map (fun binding =>
              map (member_row mk binding) (default [] (members binding)))
           (default [] (bindings iam)).

(** [fname.split('/')[1]], when there is such a piece. *)
Definition name_id (fname : string) : option string :=
  nth_error (Py.split "/" fname) 1.

(** The project listing as the API serves it from a page token on: the
    projects of all the pages in order, and the number of pages. *)
Inductive project_pages (api : Client)
    : option string -> list Project -> nat -> Prop :=
| project_pages_last tok page :
    (forall t, api_projects_list api t tok = Ok page) ->
    list_next (pp_nextPageToken page) = None ->
    project_pages api tok (default [] (pp_projects page)) 1
| project_pages_more tok page tok' rest n :
    (forall t, api_projects_list api t tok = Ok page) ->
    list_next (pp_nextPageToken page) = Some tok' ->
    project_pages api (Some tok') rest n ->
    project_pages api tok (default [] (pp_projects page) ++ rest) (S n).

(** The same for the child folders of one node. *)
Inductive folder_pages (api : Client) (parent_name : string)
    : option string -> list Folder -> nat -> Prop :=
| folder_pages_last tok page :
    (forall t, api_folders_list api t parent_name tok = Ok page) ->
    list_next (fp_nextPageToken page) = None ->
    folder_pages api parent_name tok (default [] (fp_folders page)) 1
| folder_pages_more tok page tok' rest n :
    (forall t, api_folders_list api t parent_name tok = Ok page) ->
    list_next (fp_nextPageToken page) = Some tok' ->
    folder_pages api parent_name (Some tok') rest n ->
    folder_pages api parent_name tok
      (default [] (fp_folders page) ++ rest) (S n).

(** A finite hierarchy: a node and the hierarchies of its child folders. *)
#[warnings="-register-all"]
Inductive tree :=
| Node (name : string) (children : list tree).

Definition root (t : tree) : string :=
  match t with Node name _ => name end.

Fixpoint tree_size (t : tree) : nat :=
  match t with
  | Node _ children => S (sum_list (map tree_size children))
  end.

Definition forest_size (forest : list tree) : nat :=
  sum_list (map tree_size forest).

(** The names of the folders strictly below a node. *)
Fixpoint descendants (t : tree) : list string :=
  match t with
  | Node _ children =>
      flat_map (fun child => root child :: descendants child) children
  end.

(** The ids of a list of folder names, as a set. *)
Definition ids (names : list string) : gset string :=
  list_to_set (omap name_id names).

(** The API serves the hierarchy: listing the children of a node gives, in
    at most [w] pages, the roots of its subtrees, each with an id in its
    name, and so on below. *)
#[warnings="-register-all"]
Inductive hierarchy (api : Client) (w : nat) : tree -> Prop :=
| hierarchy_node name children fs n :
    folder_pages api name None fs n ->
    n <= w ->
    map folder_name fs = map root children ->
    Forall (fun f => is_Some (name_id (folder_name f))) fs ->
    Forall (hierarchy api w) children ->
    hierarchy api w (Node name children).

(** A folder policy that can be read has well-formed members. *)
Definition folder_policies_well_formed (api : Client) : Prop :=
  forall t fname iam,
    api_folders_getIamPolicy api t fname = Ok iam -> well_formed_policy iam.

(** The project policies do not change during the run, and those that can
    be read have well-formed members. *)
Definition project_policies (api : Client) (answers : string -> http Policy)
    : Prop :=
  (forall t pid, api_projects_getIamPolicy api t pid = answers pid)
  /\ (forall pid iam, answers pid = Ok iam -> well_formed_policy iam).

(** What the project loop adds for one project. *)
Definition project_rows_of (org_id : string) (fs : gset string)
    (answers : string -> http Policy) (project : Project) : list Row :=
  if selected org_id fs project then
    match answers (projectId project) with
    | Ok iam => policy_rows (project_row (projectId project)) iam
    | Err _ => []
    end
  else [].

(** A selected project whose policy cannot be read. *)
Definition project_refused (org_id : string) (fs : gset string)
    (answers : string -> http Policy) (project : Project) : bool :=
  selected org_id fs project
  && match answers (projectId project) with
     | Ok _ => false
     | Err _ => true
     end.

(** What the walk may show to the outside: progress and error lines,
    folder listings and folder policies. *)
Definition walk_event (ev : event) : bool :=
  match ev with
  | Stdout _ | Stderr _ => true
  | Call (folders_list _ _) _ | Call (folders_getIamPolicy _) _ => true
  | _ => false
  end.

(** The log has grown from [log0] by events that all satisfy [ok]. *)
Definition grown_by (ok : event -> bool) (log0 : list event) (st : State)
    : Prop :=
  exists evs, log st = log0 ++ evs /\ forallb ok evs = true.



(** ** [LazyFileType] *)

Module LazyFileType.

(** The attributes [argparse.FileType.__init__] sets, and [filename], which
    exists only once [__call__] or [default] has set it. *)
Record t := mk {
  _mode : string;
  _bufsize : Z;
  _encoding : option string;
  _errors : option string;
  filename : option string
}.

(** [LazyFileType(mode)], the other arguments at their defaults. *)
Definition init (mode : string) : t :=
  {| _mode := mode; _bufsize := (-1)%Z; _encoding := None; _errors := None;
     filename := None |}.

Definition set_filename (s : string) (self : t) : t :=
  {| _mode := _mode self; _bufsize := _bufsize self;
     _encoding := _encoding self; _errors := _errors self;
     filename := Some s |}.

(** ['c' in self._mode]. *)
Definition contains (c : ascii) (s : string) : bool :=
  negb (Nat.eqb (Py.count c s) 0).

Definition squote : string := String (ascii_of_nat 39) EmptyString.

Definition no_such_file (s : string) : string :=
  "can't open " +:+ s +:+ ":  No such file or directory: "
  +:+ squote +:+ s +:+ squote.

(** [__call__]: the object with [filename] set, and the message of the
    [ArgumentTypeError] if one is raised.  [file_exists] is
    [pathlib.Path(...).exists()]. *)
Definition call (file_exists : string -> bool) (self : t) (s : string)
    : t * option string :=
  let self' := set_filename s self in
  if contains "r" (_mode self') || contains "x" (_mode self') then
    if negb (file_exists s) then (self', Some (no_such_file s))
    else (self', None)
  else (self', None).

(** The arguments [open] passes to the built-in [open]. *)
Record open_args := mk_open_args {
  oa_file : string;
  oa_mode : string;
  oa_buffering : Z;
  oa_encoding : option string;
  oa_errors : option string
}.

(** [open]: without a [filename] attribute the lookup fails
    ([AttributeError], here [None]). *)
Definition open (self : t) : option open_args :=
  match filename self with
  | Some f => Some (mk_open_args f (_mode self) (_bufsize self)
                      (_encoding self) (_errors self))
  | None => None
  end.

(** [default(string, mode=mode)]. *)
Definition default (s : string) (mode : string) : t :=
  set_filename s (init mode).

(** The value of [args.output]: [type] is applied to the string given
    after [-o], the default object is taken as it is. *)
Definition output (file_exists : string -> bool) (arg : option string)
    : t * option string :=
  match arg with
  | Some s => call file_exists (init "w") s
  | None => (default "iam_members.csv" "w", None)
  end.

End LazyFileType.

(** ** More concrete runs *)

Module Scenario2.

(** Two pages of projects, chained by the token [t2]. *)
Definition two_pages : Client :=
  {| api_organizations_get := fun _ n => Ok (mkOrganization n);
     api_projects_list := fun _ tok =>
       match tok with
       | None => Ok (mkProjectsPage (Some [Scenario.p_org]) (Some "t2"))
       | Some _ => Ok (mkProjectsPage (Some [Scenario.p_999]) None)
       end;
     api_organizations_getIamPolicy := fun _ _ => Ok (mkPolicy None);
     api_folders_list := fun _ _ _ => Scenario.no_folders;
     api_folders_getIamPolicy := fun _ _ => Ok (mkPolicy None);
     api_projects_getIamPolicy := fun _ pid =>
       if bool_decide (pid = "p1") then Ok (Scenario.viewer "user:b@example.com")
       else Err "403" |}.

(** The project listing is refused. *)
Definition projects_refused : Client :=
  {| api_organizations_get := fun _ n => Ok (mkOrganization n);
     api_projects_list := fun _ _ => Err "500";
     api_organizations_getIamPolicy := fun _ _ => Ok (mkPolicy None);
     api_folders_list := fun _ _ _ => Scenario.no_folders;
     api_folders_getIamPolicy := fun _ _ => Ok (mkPolicy None);
     api_projects_getIamPolicy := fun _ _ => Ok (mkPolicy None) |}.

(** The hierarchy of [Scenario.small_org]. *)
Definition small_tree : tree :=
  Node "organizations/123" [Node "folders/456" []].

Definition p1_answers (pid : string) : http Policy :=
  if bool_decide (pid = "p1") then Ok (Scenario.viewer "user:b@example.com")
  else Err "403".

End Scenario2.

(** * Properties *)

(** Unfolds the plumbing of a computation down to the next call of the
    API or the next loop. *)
Ltac step :=
  cbv [bind modify print print_stderr get ret raise out_of_fuel
       try_except_HttpError execute subscript append_result];
  cbn beta iota.

(** ** Splitting *)

Lemma split_length sep s :
  List.length (Py.split sep s) = S (Py.count sep s).
Proof.
  induction s as [|c s IH]; simpl; [reflexivity|].
  destruct (Ascii.eqb c sep); simpl; [now rewrite IH|].
  destruct (Py.split sep s) as [|p ps]; simpl in *; [discriminate|exact IH].
Qed.

Lemma split_no_separator sep s :
  Py.count sep s = 0 -> Py.split sep s = [s].
Proof.
  induction s as [|c s IH]; simpl; [reflexivity|].
  destruct (Ascii.eqb c sep); simpl; [discriminate|].
  intros H. now rewrite (IH H).
Qed.

Lemma split_one_separator sep s :
  Py.count sep s = 1 ->
  exists a b, Py.split sep s = [a; b] /\ s = a +:+ String sep b.
Proof.
  induction s as [|c s IH]; simpl; [discriminate|].
  destruct (Ascii.eqb_spec c sep) as [->|Hne]; simpl; intros H.
  - exists EmptyString, s. split; [|reflexivity].
    rewrite split_no_separator; [reflexivity|lia].
  - destruct (IH H) as (a & b & Hs & ->).
    exists (String c a), b. rewrite Hs. split; reflexivity.
Qed.

Lemma unpack2_other (pieces : list string) st :
  List.length pieces <> 2 -> unpack2 pieces st = (Raise ValueError, st).
Proof.
  destruct pieces as [|a [|b [|c l]]]; simpl; intros H;
    try reflexivity; congruence.
Qed.

(** ** The state after a computation *)

Lemma set_final_results_same st : set_final_results (final_results st) st = st.
Proof. now destruct st. Qed.

Lemma append_nothing st : set_final_results (final_results st ++ []) st = st.
Proof. rewrite app_nil_r. apply set_final_results_same. Qed.

(** ** Flattening *)

Section Flatten.

Variable mk : string -> string -> string -> Row.

Lemma flatten_member_well_formed binding member st :
  well_formed_member member ->
  exists typ mem,
    member = typ +:+ ":" +:+ mem
    /\ flatten_member mk binding member st
       = (Ret tt, set_final_results
                    (final_results st ++ [mk mem typ (role binding)]) st).
Proof.
  intros H. destruct (split_one_separator _ _ H) as (typ & mem & Hs & ->).
  exists typ, mem. split; [reflexivity|].
  unfold flatten_member, bind. now rewrite Hs.
Qed.

Lemma flatten_member_malformed binding member st :
  ~ well_formed_member member ->
  flatten_member mk binding member st = (Raise ValueError, st).
Proof.
  intros H. unfold flatten_member, bind.
  rewrite unpack2_other; [reflexivity|].
  rewrite split_length. unfold well_formed_member in H. lia.
Qed.

Lemma well_formed_member_dec member :
  {well_formed_member member} + {~ well_formed_member member}.
Proof. unfold well_formed_member. apply Nat.eq_dec. Defined.

(** The members of one binding: as many rows as members. *)
Lemma members_loop_well_formed binding ms : forall st,
  Forall well_formed_member ms ->
  exists rows,
    for_each ms (flatten_member mk binding) st
    = (Ret tt, set_final_results (final_results st ++ rows) st)
    /\ List.length rows = List.length ms.
Proof.
  induction ms as [|m ms IH]; intros st Hwf.
  - exists []. simpl. unfold ret. now rewrite append_nothing.
  - inversion Hwf as [|? ? Hm Hms]; subst.
    destruct (flatten_member_well_formed binding m st Hm)
      as (typ & mem & _ & Hrun).
    destruct (IH (set_final_results
                    (final_results st ++ [mk mem typ (role binding)]) st) Hms)
      as (rows & Hrest & Hlen).
    exists (mk mem typ (role binding) :: rows). split.
    + simpl. unfold bind at 1. rewrite Hrun, Hrest. simpl.
      now rewrite <- app_assoc.
    + simpl. now rewrite Hlen.
Qed.

Lemma bindings_loop_well_formed bs : forall st,
  Forall (fun binding =>
            Forall well_formed_member (default [] (members binding))) bs ->
  exists rows,
    for_each bs (fun binding =>
      for_each (default [] (members binding)) (flatten_member mk binding)) st
    = (Ret tt, set_final_results (final_results st ++ rows) st)
    /\ List.length rows
       = sum_list (map (fun binding =>
                          List.length (default [] (members binding))) bs).
Proof.
  induction bs as [|b bs IH]; intros st Hwf.
  - exists []. simpl. unfold ret. now rewrite append_nothing.
  - inversion Hwf as [|? ? Hb Hbs]; subst.
    destruct (members_loop_well_formed b _ st Hb) as (r1 & Hrun & Hlen1).
    destruct (IH (set_final_results (final_results st ++ r1) st) Hbs)
      as (r2 & Hrest & Hlen2).
    exists (r1 ++ r2). split.
    + simpl. unfold bind at 1. rewrite Hrun, Hrest. simpl.
      now rewrite <- app_assoc.
    + simpl. rewrite length_app. lia.
Qed.

(** Whatever the policy, flattening only appends rows built by [mk]: the
    flag, the folder set, the stack and the log stay as they are. *)
Lemma members_loop_appends binding ms : forall st,
  exists rows,
    snd (for_each ms (flatten_member mk binding) st)
    = set_final_results (final_results st ++ rows) st
    /\ Forall (fun r => exists mem typ rol, r = mk mem typ rol) rows.
Proof.
  induction ms as [|m ms IH]; intros st.
  - exists []. simpl. now rewrite append_nothing.
  - simpl. unfold bind at 1.
    destruct (well_formed_member_dec m) as [Hm|Hm].
    + destruct (flatten_member_well_formed binding m st Hm)
        as (typ & mem & _ & Hrun).
      rewrite Hrun.
      destruct (IH (set_final_results
                      (final_results st ++ [mk mem typ (role binding)]) st))
        as (rows & Hrest & Hall).
      exists (mk mem typ (role binding) :: rows). split.
      * rewrite Hrest. simpl. now rewrite <- app_assoc.
      * constructor; [now exists mem, typ, (role binding)|exact Hall].
    + rewrite (flatten_member_malformed binding m st Hm).
      exists []. simpl. now rewrite append_nothing.
Qed.

Lemma flatten_appends iam st :
  exists rows,
    snd (flatten iam mk st) = set_final_results (final_results st ++ rows) st
    /\ Forall (fun r => exists mem typ rol, r = mk mem typ rol) rows.
Proof.
  unfold flatten. generalize (default [] (bindings iam)) as bs.
  intros bs. revert st. induction bs as [|b bs IH]; intros st.
  - exists []. simpl. now rewrite append_nothing.
  - simpl. unfold bind at 1.
    destruct (members_loop_appends b (default [] (members b)) st)
      as (r1 & H1 & Hall1).
    destruct (for_each (default [] (members b)) (flatten_member mk b) st)
      as [[[]|e|] st1] eqn:Hrun; simpl in H1; subst st1.
    + destruct (IH (set_final_results (final_results st ++ r1) st))
        as (r2 & H2 & Hall2).
      exists (r1 ++ r2). split.
      * rewrite H2. simpl. now rewrite <- app_assoc.
      * now apply Forall_app.
    + exists r1. now split.
    + exists r1. now split.
Qed.




End Flatten.

(** ** Properties of the state that the whole collection keeps *)


Lemma preserves_for_each {A} (P : State -> Prop) (xs : list A)
    (body : A -> M unit) :
  (forall x, x ∈ xs -> preserves P (body x)) ->
  preserves P (for_each xs body).
Proof.
  induction xs as [|x xs IH]; intros Hbody st HP; [exact HP|].
  simpl. unfold bind.
  assert (Hx : P (snd (body x st))) by (apply Hbody; [left|exact HP]).
  destruct (body x st) as [[[]|e|] st1]; simpl in *; try exact Hx.
  apply IH; [|exact Hx]. intros y Hy. apply Hbody. now right.
Qed.

Section Invariant.

Variable api : Client.
Variable org_id : string.
Variable P : State -> Prop.
Variable good_row : Row -> Prop.

Hypothesis P_stdout : forall line st, P st -> P (emit (Stdout line) st).
Hypothesis P_stderr : forall line st, P st -> P (emit (Stderr line) st).
Hypothesis P_call_ok : forall req st, P st -> P (tick (emit (Call req None) st)).
Hypothesis P_call_fatal : forall req e st,
  recoverable req = false -> P st -> P (tick (emit (Call req (Some e)) st)).
Hypothesis P_call_handled : forall req e st,
  recoverable req = true -> P st ->
  P (set_ERROR (Some true) (tick (emit (Call req (Some e)) st))).
Hypothesis P_stack : forall v st, P st -> P (set_stack v st).
Hypothesis P_folders : forall v st, P st -> P (set_folders v st).
Hypothesis P_no_rows : forall st, P st -> P (set_final_results [] st).
Hypothesis P_rows : forall rows st,
  Forall good_row rows -> P st ->
  P (set_final_results (final_results st ++ rows) st).

Hypothesis org_rows : good_org good_row org_id.
Hypothesis folder_rows : forall t parent_name tok page folder,
  api_folders_list api t parent_name tok = Ok page ->
  folder ∈ default [] (fp_folders page) -> good_folder good_row folder.
Hypothesis project_rows : forall t tok page project,
  api_projects_list api t tok = Ok page ->
  project ∈ default [] (pp_projects page) -> good_project good_row project.

Lemma inv_flatten iam mk :
  (forall mem typ rol, good_row (mk mem typ rol)) ->
  preserves P (flatten iam mk).
Proof.
  intros Hmk st HP.
  destruct (flatten_appends mk iam st) as (rows & -> & Hrows).
  apply P_rows; [|exact HP].
  eapply Forall_impl; [exact Hrows|].
  intros r (mem & typ & rol & ->). apply Hmk.
Qed.

Lemma inv_org_policy org folder_id :
  preserves P (org_policy api org org_id folder_id).
Proof.
  intros st HP. unfold org_policy, try_except_HttpError, execute.
  destruct (api_organizations_getIamPolicy api (clock st) (org_name org)).
  - apply inv_flatten; [exact org_rows|]. now apply P_call_ok.
  - simpl. apply P_stderr. now apply P_call_handled.
Qed.

Lemma inv_visit_folder folder :
  good_folder good_row folder -> preserves P (visit_folder api folder).
Proof.
  intros Hgood st HP. unfold visit_folder. step.
  destruct (nth_error (Py.split "/" (folder_name folder)) 1) as [fid|] eqn:Hfid;
    [|exact HP].
  set (st1 := set_folders _ (set_stack _ st)).
  assert (HP1 : P st1) by (apply P_folders, P_stack, HP).
  destruct (api_folders_getIamPolicy api (clock st1) (folder_name folder)).
  - apply inv_flatten; [intros; now apply Hgood|]. now apply P_call_ok.
  - apply P_stdout. now apply P_call_handled.
Qed.

Lemma inv_list_loop fuel : forall current tok,
  preserves P (list_loop api fuel current tok).
Proof.
  induction fuel as [|fuel IH]; intros current tok st HP; [exact HP|].
  simpl. unfold bind at 1, print, modify. simpl.
  unfold try_except_HttpError, execute. simpl.
  destruct (api_folders_list api (clock st) current tok) as [page|e] eqn:Hpage.
  - unfold bind at 1.
    set (st1 := tick (emit (Call _ None) (emit (Stdout _) st))).
    assert (HP1 : P st1) by (apply P_call_ok, P_stdout, HP).
    assert (Hfs : P (snd (for_each (default [] (fp_folders page))
                            (visit_folder api) st1))).
    { apply preserves_for_each; [|exact HP1].
      intros f Hf. apply inv_visit_folder. eapply folder_rows; eauto. }
    destruct (for_each (default [] (fp_folders page)) (visit_folder api) st1)
      as [[[]|e|] st2]; simpl in Hfs; try exact Hfs.
    destruct (list_next (fp_nextPageToken page)); [now apply IH|exact Hfs].
  - simpl. apply IH. apply P_stderr, P_call_handled; [reflexivity|].
    now apply P_stdout.
Qed.

Lemma inv_walk fuel : preserves P (walk api fuel).
Proof.
  induction fuel as [|fuel IH]; intros st HP; [exact HP|].
  simpl. unfold bind at 1, get.
  destruct (stack st) as [|current rest] eqn:Hstack; [exact HP|].
  unfold bind at 1, modify. unfold bind at 1.
  assert (H1 : P (snd (list_loop api fuel current None (set_stack rest st))))
    by (apply inv_list_loop, P_stack, HP).
  destruct (list_loop api fuel current None (set_stack rest st))
    as [[[]|e|] st1]; simpl in H1; try exact H1.
  now apply IH.
Qed.

Lemma inv_projects_loop fuel : forall tok acc st,
  P st -> Forall (good_project good_row) acc ->
  P (snd (projects_loop api fuel tok acc st))
  /\ forall ps, fst (projects_loop api fuel tok acc st) = Ret ps ->
                Forall (good_project good_row) ps.
Proof.
  induction fuel as [|fuel IH]; intros tok acc st HP Hacc;
    [split; [exact HP|discriminate]|].
  cbn [projects_loop]. step.
  set (st0 := emit (Stdout "Getting projects...") st).
  assert (HP0 : P st0) by now apply P_stdout.
  destruct (api_projects_list api (clock st0) tok) as [page|e] eqn:Hpage.
  - set (st1 := tick (emit (Call _ None) st0)).
    assert (HP1 : P st1) by now apply P_call_ok.
    assert (Hacc' : Forall (good_project good_row) (acc ++ default [] (pp_projects page))).
    { apply Forall_app. split; [exact Hacc|].
      apply Forall_forall. intros p Hp. eapply project_rows; eauto. }
    destruct (list_next (pp_nextPageToken page)); [now apply IH|].
    split; [exact HP1|]. simpl. intros ps [= <-]. exact Hacc'.
  - split; [|discriminate]. now apply P_call_fatal.
Qed.

Lemma inv_process_project project :
  good_project good_row project -> preserves P (process_project api org_id project).
Proof.
  intros Hgood st HP. unfold process_project, bind at 1, get.
  destruct (selected org_id (folders st) project); [|exact HP].
  unfold try_except_HttpError, execute.
  destruct (api_projects_getIamPolicy api (clock st) (projectId project)).
  - apply inv_flatten; [exact Hgood|]. now apply P_call_ok.
  - simpl. apply P_stderr. now apply P_call_handled.
Qed.

Lemma inv_collect fuel org folder_id :
  preserves P (collect api fuel org org_id folder_id).
Proof.
  intros st HP. unfold collect. unfold bind at 1.
  destruct (inv_projects_loop fuel None [] st HP (List.Forall_nil _)) as [H1 Hps].
  destruct (projects_loop api fuel None [] st) as [[ps|e|] st1];
    simpl in H1; try exact H1.
  specialize (Hps ps eq_refl).
  unfold bind at 1, modify. unfold bind at 1.
  assert (H2 : P (set_final_results [] st1)) by now apply P_no_rows.
  set (st2 := set_final_results [] st1) in *.
  assert (H3 : forall name st3, P st3 ->
            P (snd ((modify (set_folders ∅) ;; modify (set_stack [name]) ;;
                     walk api fuel ;; print "Processing results..." ;;
                     for_each ps (process_project api org_id)) st3))).
  { intros name st3 HP3. unfold bind at 1, modify. unfold bind at 1.
    unfold bind at 1.
    assert (H4 : P (snd (walk api fuel (set_stack [name] (set_folders ∅ st3)))))
      by (apply inv_walk, P_stack, P_folders, HP3).
    destruct (walk api fuel (set_stack [name] (set_folders ∅ st3)))
      as [[[]|e|] st4]; simpl in H4; try exact H4.
    unfold bind at 1, print, modify.
    apply preserves_for_each; [|now apply P_stdout].
    intros p Hp. apply inv_process_project.
    eapply Forall_forall in Hps; eauto. }
  destruct (Py.truthy folder_id).
  - unfold ret at 1. apply H3, H2.
  - unfold bind at 1.
    assert (H5 : P (snd (org_policy api org org_id folder_id st2)))
      by (apply inv_org_policy, H2).
    destruct (org_policy api org org_id folder_id st2) as [[[]|e|] st5];
      simpl in H5; try exact H5.
    unfold ret at 1. apply H3, H5.
Qed.

End Invariant.

(** ** The shape of a run *)

Lemma report_returns outfile st :
  exists st',
    report outfile st = (Ret (_ERROR st), st')
    /\ _ERROR st' = _ERROR st
    /\ final_results st' = final_results st
    /\ log st'
       = log st
         ++ [Stdout ("Writing file " +:+ Py.dquote +:+ outfile +:+ Py.dquote);
             OpenFile outfile;
             WriteRows header (final_results st);
             Stdout "Done."]
         ++ (if is_true (_ERROR st) then [Stdout caveat] else []).
Proof.
  unfold report, write_report. step. simpl.
  destruct (is_true (_ERROR st)); eexists; (split; [reflexivity|]); simpl;
    repeat rewrite <- app_assoc; simpl; auto.
Qed.

Lemma run_unfold api fuel org_id folder_id outfile st :
  run api fuel org_id folder_id outfile st
  = let st0 := emit (Stdout "Validating organization...") (set_ERROR None st) in
    let name := "organizations/" +:+ org_id in
    match api_organizations_get api (clock st0) name with
    | Ok org =>
        (collect api fuel org org_id folder_id ;; report outfile)
          (tick (emit (Call (organizations_get name) None) st0))
    | Err e =>
        (Raise (SystemExit ("Error getting organization: " +:+ e)),
         tick (emit (Call (organizations_get name) (Some e)) st0))
    end.
Proof.
  unfold run. cbv [bind modify print try_except_HttpError execute raise].
  cbn beta iota zeta.
  now destruct (api_organizations_get api _ _).
Qed.

(** After the collection comes the report, unless the collection raised or
    did not end. *)
Lemma collect_then_report (m : M unit) outfile st :
  match fst (m st) with
  | Ret _ =>
      fst ((m ;; report outfile) st) = Ret (_ERROR (snd (m st)))
      /\ _ERROR (snd ((m ;; report outfile) st)) = _ERROR (snd (m st))
      /\ final_results (snd ((m ;; report outfile) st))
         = final_results (snd (m st))
      /\ log (snd ((m ;; report outfile) st))
         = log (snd (m st))
           ++ [Stdout ("Writing file " +:+ Py.dquote +:+ outfile
                       +:+ Py.dquote);
               OpenFile outfile;
               WriteRows header (final_results (snd (m st)));
               Stdout "Done."]
           ++ (if is_true (_ERROR (snd (m st))) then [Stdout caveat] else [])
  | Raise e => (m ;; report outfile) st = (Raise e, snd (m st))
  | OutOfFuel => (m ;; report outfile) st = (OutOfFuel, snd (m st))
  end.
Proof.
  unfold bind. destruct (m st) as [[[]|e|] st1]; simpl; try reflexivity.
  destruct (report_returns outfile st1) as (st' & -> & HE & HR & HL).
  simpl. repeat split; assumption.
Qed.

(** ** The flag *)

Lemma existsb_snoc {A} (f : A -> bool) (l : list A) (x : A) :
  existsb f (l ++ [x]) = existsb f l || f x.
Proof. rewrite existsb_app. simpl. now rewrite orb_false_r. Qed.

Lemma degraded_collect api fuel org org_id folder_id :
  preserves Degraded (collect api fuel org org_id folder_id).
Proof.
  apply (inv_collect api org_id Degraded (fun _ => True));
    unfold Degraded, good_org, good_folder, good_project; simpl; auto.
Qed.

Lemma flag_collect api fuel org org_id folder_id :
  preserves flag_tracks_failures (collect api fuel org org_id folder_id).
Proof.
  apply (inv_collect api org_id flag_tracks_failures (fun _ => True));
    unfold flag_tracks_failures, good_org, good_folder, good_project;
    simpl; auto.
  - intros line st ->. now rewrite existsb_snoc, orb_false_r.
  - intros line st ->. now rewrite existsb_snoc, orb_false_r.
  - intros req st ->. now rewrite existsb_snoc, orb_false_r.
  - intros req e st Hreq ->. rewrite existsb_snoc. simpl.
    now rewrite Hreq, orb_false_r.
  - intros req e st Hreq _. rewrite existsb_snoc. simpl.
    now rewrite Hreq, orb_true_r.
Qed.

Lemma flag_report (m : M unit) outfile st :
  flag_tracks_failures (snd (m st)) ->
  flag_tracks_failures (snd ((m ;; report outfile) st)).
Proof.
  intros H. pose proof (collect_then_report m outfile st) as Hr.
  destruct (fst (m st)) eqn:Hm.
  - destruct Hr as (_ & HE & _ & HL). unfold flag_tracks_failures in *.
    rewrite HE, HL, H, !existsb_app. simpl.
    destruct (existsb recoverable_failure _); reflexivity.
  - now rewrite Hr.
  - now rewrite Hr.
Qed.

Lemma flag_run api fuel org_id folder_id outfile :
  flag_tracks_failures (snd (run api fuel org_id folder_id outfile initial)).
Proof.
  rewrite run_unfold. cbn zeta.
  destruct (api_organizations_get api _ _) as [org|e]; [|reflexivity].
  apply flag_report, flag_collect. reflexivity.
Qed.

Lemma flag_values st :
  flag_tracks_failures st -> Clean st \/ Degraded st.
Proof.
  unfold flag_tracks_failures, Clean, Degraded.
  destruct (existsb _ _); auto.
Qed.

Lemma run_returns_flag api fuel org_id folder_id outfile st v :
  fst (run api fuel org_id folder_id outfile st) = Ret v ->
  v = _ERROR (snd (run api fuel org_id folder_id outfile st)).
Proof.
  rewrite run_unfold. cbn zeta.
  destruct (api_organizations_get api _ _) as [org|e]; [|discriminate].
  set (st1 := tick _).
  pose proof (collect_then_report (collect api fuel org org_id folder_id)
                outfile st1) as Hr.
  destruct (fst (collect api fuel org org_id folder_id st1)).
  - destruct Hr as (Hv & HE & _). rewrite Hv, HE. now intros [= <-].
  - rewrite Hr. discriminate.
  - rewrite Hr. discriminate.
Qed.

(** C4 (as amended).  The flag starts Clean; at every point of a run it is
    Degraded exactly when a recoverable failure (organization policy,
    folder listing, folder policy or project policy) has happened so far,
    and once Degraded it stays Degraded through everything that follows.
    When [run] returns, the exit status is 0 on a Clean run and 1 on a
    Degraded one.  A run that an exception ends (the fatal abort of the
    organization lookup, or an exception nobody handles) exits with
    status 1 whatever the flag, and a run that does not end has no status. *)
Theorem C4_degraded_flag_and_exit_status api fuel org_id folder_id outfile :
  let r := run api fuel org_id folder_id outfile initial in
  let m := main api fuel org_id folder_id outfile in
  Clean initial
  /\ flag_tracks_failures (snd r)
  /\ (forall org st,
        Degraded st ->
        Degraded (snd ((collect api fuel org org_id folder_id ;;
                        report outfile) st)))
  /\ match fst r with
     | Ret v =>
         v = _ERROR (snd r)
         /\ ((Clean (snd r) /\ fst m = Some 0%Z)
             \/ (Degraded (snd r) /\ fst m = Some 1%Z))
     | Raise e => fst m = Some 1%Z
     | OutOfFuel => fst m = None
     end.
Proof.
  intros r m. split; [reflexivity|]. split; [apply flag_run|]. split.
  - intros org st Hd.
    pose proof (collect_then_report (collect api fuel org org_id folder_id)
                  outfile st) as Hr.
    pose proof (degraded_collect api fuel org org_id folder_id st Hd) as Hc.
    destruct (fst (collect api fuel org org_id folder_id st)).
    + destruct Hr as (_ & HE & _). unfold Degraded in *. now rewrite HE.
    + now rewrite Hr.
    + now rewrite Hr.
  - pose proof (flag_values _ (flag_run api fuel org_id folder_id outfile))
      as Hflag.
    pose proof (run_returns_flag api fuel org_id folder_id outfile initial)
      as Hv.
    subst r m. unfold main.
    destruct (run api fuel org_id folder_id outfile initial) as [[v|e|] st];
      simpl in *.
    + specialize (Hv v eq_refl). subst v. split; [reflexivity|].
      unfold Clean, Degraded in *.
      destruct Hflag as [H|H]; rewrite H; simpl; auto.
    + now destruct e.
    + reflexivity.
Qed.

(** C4 (as stated) fails where a member string does not split in two: the
    organization lookup succeeds, the organization's policy names
    [allUsers], the process ends with status 1 and the flag was never
    set. *)
Lemma C4_crash_exits_nonzero_while_clean :
  let m := main Scenario.all_users 5 "123" None "iam_members.csv" in
  api_organizations_get Scenario.all_users 0 "organizations/123"
  = Ok (mkOrganization "organizations/123")
  /\ fst m = Some 1%Z
  /\ Clean (snd m)
  /\ ~ (fst m <> Some 0%Z <-> Degraded (snd m)).
Proof.
  vm_compute. repeat split; try reflexivity.
  intros [H _]. discriminate H. discriminate.
Qed.

(** ** The fatal abort *)

(** C5.  When the organization lookup fails, the process ends with status
    1 having done three things only: the progress line, the lookup, and
    the error message on the error stream.  No policy is fetched, no row
    exists, and the output file is neither opened nor written. *)
Theorem C5_fatal_short_circuit api fuel org_id folder_id outfile e :
  api_organizations_get api 0 ("organizations/" +:+ org_id) = Err e ->
  let m := main api fuel org_id folder_id outfile in
  fst m = Some 1%Z
  /\ log (snd m)
     = [Stdout "Validating organization...";
        Call (organizations_get ("organizations/" +:+ org_id)) (Some e);
        Stderr ("Error getting organization: " +:+ e)]
  /\ final_results (snd m) = []
  /\ existsb is_policy_call (log (snd m)) = false
  /\ existsb touches_file (log (snd m)) = false.
Proof.
  intros H m. subst m. unfold main. rewrite run_unfold. cbn zeta.
  change (clock (emit _ (set_ERROR None initial))) with 0.
  rewrite H. repeat split.
Qed.

Lemma C5_fatal_short_circuit_witness :
  api_organizations_get Scenario.no_organization 0 ("organizations/" +:+ "123")
  = Err "404"
  /\ let m := main Scenario.no_organization 5 "123" None "iam_members.csv" in
     fst m = Some 1%Z
     /\ log (snd m)
        = [Stdout "Validating organization...";
           Call (organizations_get ("organizations/" +:+ "123")) (Some "404");
           Stderr ("Error getting organization: " +:+ "404")]
     /\ final_results (snd m) = []
     /\ existsb is_policy_call (log (snd m)) = false
     /\ existsb touches_file (log (snd m)) = false.
Proof.
  split; [reflexivity|].
  apply (C5_fatal_short_circuit Scenario.no_organization 5 "123" None
           "iam_members.csv" "404").
  reflexivity.
Defined.

(** ** The join *)

Lemma selected_iff org_id fs project :
  selected org_id fs project = true <-> selected_code org_id fs project.
Proof.
  unfold selected, selected_code, active.
  rewrite andb_true_iff, bool_decide_eq_true.
  destruct (parent_get_id project) as [i|].
  - rewrite orb_true_iff, !bool_decide_eq_true. split.
    + intros [Ha Hp]. split; [exact Ha|]. now exists i.
    + intros [Ha (j & [= <-] & Hp)]. now split.
  - split; [intros [_ H]; discriminate|].
    intros [_ (j & H & _)]. discriminate.
Qed.

(** Without a folder restriction the test is the join of the
    specification. *)
Lemma selected_agrees_when_unrestricted org_id fs project :
  selected org_id fs project = true <-> selected_spec org_id false fs project.
Proof.
  rewrite selected_iff. unfold selected_code, selected_spec. split.
  - intros [Ha (i & Hi & [->|Hin])]; (split; [exact Ha|]).
    + now right.
    + left. now exists i.
  - intros [Ha [(i & Hi & Hin)|[Hi _]]]; (split; [exact Ha|]).
    + exists i. auto.
    + exists org_id. auto.
Qed.

(** C10.  An active project without a parent is not selected, whatever the
    organization id and whatever folders were walked, and the project loop
    passes over it without a request, a row or an error. *)
Theorem C10_parentless_project_not_selected api org_id fs project st :
  parent project = None ->
  selected org_id fs project = false
  /\ process_project api org_id project st = (Ret tt, st).
Proof.
  intros H.
  assert (Hs : forall fs', selected org_id fs' project = false).
  { intros fs'. unfold selected, parent_get_id. rewrite H.
    apply andb_false_r. }
  split; [apply Hs|].
  unfold process_project. step. now rewrite Hs.
Qed.

Lemma C10_parentless_project_not_selected_witness :
  parent Scenario.p_orphan = None
  /\ active Scenario.p_orphan
  /\ selected "123" {["456"]} Scenario.p_orphan = false
  /\ process_project Scenario.small_org "123" Scenario.p_orphan initial
     = (Ret tt, initial).
Proof.
  split; [reflexivity|]. split; [reflexivity|].
  apply (C10_parentless_project_not_selected Scenario.small_org "123"
           {["456"]} Scenario.p_orphan initial).
  reflexivity.
Defined.

(** ** Flattening: how many rows *)

(** C8.  On a policy whose member strings are well formed, flattening
    cannot fail: it returns, having appended to the result set exactly as
    many rows as the bindings have members in total, each carrying the
    given location, and having changed nothing else.  A policy without
    bindings and a binding without members add nothing to that sum. *)
Theorem C8_flatten_cardinality iam mk st :
  well_formed_policy iam ->
  exists rows,
    flatten iam mk st
    = (Ret tt, set_final_results (final_results st ++ rows) st)
    /\ List.length rows = member_count iam
    /\ Forall (fun r => exists mem typ rol, r = mk mem typ rol) rows.
Proof.
  intros Hwf.
  destruct (bindings_loop_well_formed mk _ st Hwf) as (rows & Hrun & Hlen).
  exists rows. split; [exact Hrun|]. split; [exact Hlen|].
  destruct (flatten_appends mk iam st) as (rows' & Hsnd & Hall).
  unfold flatten in Hsnd. rewrite Hrun in Hsnd. simpl in Hsnd.
  assert (rows = rows') as ->; [|exact Hall].
  apply (f_equal final_results) in Hsnd. simpl in Hsnd.
  now apply app_inv_head in Hsnd.
Qed.

Lemma C8_flatten_cardinality_witness :
  let iam := Scenario.policy
               [("roles/owner", ["user:a@example.com"; "group:g@example.com"]);
                ("roles/empty", []);
                ("roles/viewer", ["user:b@example.com"])] in
  well_formed_policy iam
  /\ member_count iam = 3
  /\ exists rows,
       flatten iam (org_row "123") initial
       = (Ret tt, set_final_results (final_results initial ++ rows) initial)
       /\ List.length rows = member_count iam
       /\ Forall (fun r => exists mem typ rol, r = org_row "123" mem typ rol)
                 rows.
Proof.
  intros iam.
  assert (Hwf : well_formed_policy iam).
  { unfold well_formed_policy, well_formed_member. simpl.
    repeat constructor. }
  split; [exact Hwf|]. split; [reflexivity|].
  apply (C8_flatten_cardinality iam (org_row "123") initial Hwf).
Defined.

(** ** Location tags *)






(** ** Member strings that do not split in two *)

Lemma no_file_collect api fuel org org_id folder_id :
  preserves no_file (collect api fuel org org_id folder_id).
Proof.
  apply (inv_collect api org_id no_file (fun _ => True));
    unfold no_file, good_org, good_folder, good_project; simpl; auto;
    intros; now rewrite existsb_snoc, orb_false_r.
Qed.








(** ** The join under a folder restriction *)

(** C1 (the code at the failing input).  Organization 123, restriction to
    folder 999, one active project directly under the organization.  The
    specification's join does not select the project; the test of the
    project loop does, its policy is fetched and its row is written. *)
Theorem C1_org_project_selected_under_folder_restriction :
  let m := main Scenario.org_project 5 "123" (Some "999") "iam_members.csv" in
  active Scenario.p_org
  /\ folders (snd m) = ∅
  /\ ~ selected_spec "123" true (folders (snd m)) Scenario.p_org
  /\ selected "123" (folders (snd m)) Scenario.p_org = true
  /\ requested (projects_getIamPolicy "p1") (snd m) = true
  /\ final_results (snd m)
     = [project_row "p1" "b@example.com" "user" "roles/viewer"]
  /\ fst m = Some 0%Z.
Proof.
  intros m.
  assert (Hf : folders (snd m) = ∅) by (vm_compute; reflexivity).
  split; [reflexivity|]. split; [exact Hf|]. split.
  - rewrite Hf. intros [_ [(i & _ & Hi)|[_ H]]]; [|discriminate].
    now apply not_elem_of_empty in Hi.
  - rewrite Hf. repeat split; vm_compute; reflexivity.
Qed.

(** C2 (the code at the failing input).  Organization 123, restriction to
    folder 999, which has a policy of its own, no child folder and one
    active project directly under it.  The policy of folder 999 is never
    requested, 999 is not among the visited folders, the project is not
    selected, and the report is written without a single row. *)
Theorem C2_root_folder_left_out :
  let m := main Scenario.folder_project 5 "123" (Some "999") "iam_members.csv" in
  fst m = Some 0%Z
  /\ requested (folders_list "folders/999" None) (snd m) = true
  /\ requested (folders_getIamPolicy "folders/999") (snd m) = false
  /\ folders (snd m) = ∅
  /\ active Scenario.p_999
  /\ selected "123" (folders (snd m)) Scenario.p_999 = false
  /\ requested (projects_getIamPolicy "p2") (snd m) = false
  /\ final_results (snd m) = []
  /\ In (WriteRows header []) (log (snd m)).
Proof.
  intros m. repeat split; try (vm_compute; reflexivity).
  vm_compute. tauto.
Qed.

(** ** Where the error messages go *)

Lemma visit_folder_policy_refused api folder fid e st :
  nth_error (Py.split "/" (folder_name folder)) 1 = Some fid ->
  api_folders_getIamPolicy api (clock st) (folder_name folder) = Err e ->
  exists st',
    visit_folder api folder st = (Ret tt, st')
    /\ Degraded st'
    /\ log st'
       = log st
         ++ [Call (folders_getIamPolicy (folder_name folder)) (Some e);
             Stdout ("Error getting folder " +:+ Py.dquote +:+ fid
                     +:+ " IAM: " +:+ e)].
Proof.
  intros Hfid Herr. unfold visit_folder. step. rewrite Hfid.
  change (clock (set_folders _ (set_stack _ st))) with (clock st).
  rewrite Herr. eexists. split; [reflexivity|]. split; [reflexivity|].
  simpl. now rewrite <- app_assoc.
Qed.

(** C7 (the code at the failing input).  The organization has one folder,
    456, whose policy cannot be read.  The run is Degraded and ends with
    status 1, but the message about folder 456 is on standard output and
    nothing at all is written on the error stream. *)
Theorem C7_folder_policy_failure_reported_on_stdout :
  let m := main Scenario.folder_policy_refused 5 "123" None "iam_members.csv" in
  fst m = Some 1%Z
  /\ Degraded (snd m)
  /\ In (Call (folders_getIamPolicy "folders/456") (Some "403")) (log (snd m))
  /\ In (Stdout ("Error getting folder " +:+ Py.dquote +:+ "456 IAM: 403"))
        (log (snd m))
  /\ existsb on_stderr (log (snd m)) = false.
Proof.
  intros m. repeat split; try (vm_compute; reflexivity); vm_compute; tauto.
Qed.

(** ** A folder listing that keeps failing *)

Lemma failed_attempts_fields n current tok e : forall st,
  stack (failed_attempts n current tok e st) = stack st
  /\ final_results (failed_attempts n current tok e st) = final_results st
  /\ folders (failed_attempts n current tok e st) = folders st.
Proof.
  induction n as [|n IH]; intros st; [now repeat split|].
  simpl. destruct (IH (failed_attempt current tok e st)) as (H1 & H2 & H3).
  now rewrite H1, H2, H3.
Qed.

Lemma failed_attempts_no_file n current tok e : forall st,
  no_file st -> no_file (failed_attempts n current tok e st).
Proof.
  induction n as [|n IH]; intros st H; [exact H|].
  simpl. apply IH. unfold no_file in *. simpl.
  now rewrite !existsb_snoc, H.
Qed.

Lemma failed_attempts_requested n current tok e req : forall st,
  req <> folders_list current tok ->
  requested req (failed_attempts n current tok e st) = requested req st.
Proof.
  induction n as [|n IH]; intros st Hreq; [reflexivity|].
  simpl. rewrite IH by exact Hreq. unfold requested. simpl.
  rewrite !existsb_snoc. simpl.
  rewrite bool_decide_eq_false_2 by congruence.
  now rewrite !orb_false_r.
Qed.

(** The inner loop never leaves a listing that fails every time it is
    asked: whatever the fuel, all of it goes into failed attempts. *)
Lemma list_loop_refused api current tok e :
  (forall t, api_folders_list api t current tok = Err e) ->
  forall fuel st,
    list_loop api fuel current tok st
    = (OutOfFuel, failed_attempts fuel current tok e st).
Proof.
  intros Herr. induction fuel as [|fuel IH]; intros st; [reflexivity|].
  cbn [list_loop failed_attempts]. rewrite <- IH.
  cbv [bind print modify try_except_HttpError execute print_stderr].
  cbn beta iota. now rewrite Herr.
Qed.

(** So the outer loop never comes back to the entries below: they stay on
    the stack, and no row and no folder is added. *)
Lemma walk_refused api current rest e :
  (forall t, api_folders_list api t current None = Err e) ->
  forall fuel st,
    stack st = current :: rest ->
    walk api (S fuel) st
    = (OutOfFuel, failed_attempts fuel current None e (set_stack rest st)).
Proof.
  intros Herr fuel st Hstack. cbn [walk]. step. rewrite Hstack.
  now rewrite (list_loop_refused api current None e Herr).
Qed.

Lemma walk_refused_leaves_rest api current rest e fuel st :
  (forall t, api_folders_list api t current None = Err e) ->
  stack st = current :: rest ->
  fst (walk api (S fuel) st) = OutOfFuel
  /\ stack (snd (walk api (S fuel) st)) = rest
  /\ final_results (snd (walk api (S fuel) st)) = final_results st
  /\ folders (snd (walk api (S fuel) st)) = folders st.
Proof.
  intros Herr Hstack. rewrite (walk_refused api current rest e Herr fuel st Hstack).
  split; [reflexivity|]. apply failed_attempts_fields.
Qed.

(** One turn of each loop. *)
Lemma walk_pop api fuel current rest st :
  stack st = current :: rest ->
  walk api (S fuel) st
  = (list_loop api fuel current None ;; walk api fuel) (set_stack rest st).
Proof. intros H. cbn [walk]. step. now rewrite H. Qed.

Lemma list_loop_last_page api fuel current tok page st :
  api_folders_list api (clock st) current tok = Ok page ->
  list_next (fp_nextPageToken page) = None ->
  list_loop api (S fuel) current tok st
  = for_each (default [] (fp_folders page)) (visit_folder api)
      (tick (emit (Call (folders_list current tok) None)
               (emit (Stdout "Getting folders...") st))).
Proof.
  intros Hpage Hnext. cbn [list_loop]. step.
  change (clock (emit _ st)) with (clock st). rewrite Hpage, Hnext.
  now destruct (for_each _ _ _) as [[[]|?|] ?].
Qed.

Lemma projects_loop_last_page api fuel tok acc page st :
  api_projects_list api (clock st) tok = Ok page ->
  list_next (pp_nextPageToken page) = None ->
  projects_loop api (S fuel) tok acc st
  = (Ret (acc ++ default [] (pp_projects page)),
     tick (emit (Call (projects_list tok) None)
             (emit (Stdout "Getting projects...") st))).
Proof.
  intros Hpage Hnext. cbn [projects_loop]. step.
  change (clock (emit _ st)) with (clock st). now rewrite Hpage, Hnext.
Qed.

Lemma sibling_refused_listing t :
  api_folders_list Scenario.sibling_refused t "folders/222" None = Err "403".
Proof. reflexivity. Qed.

Lemma sibling_refused_run n :
  exists st',
    run Scenario.sibling_refused (S (S (S n))) "123" None "iam_members.csv"
      initial
    = (OutOfFuel, failed_attempts (S n) "folders/222" None "403" st')
    /\ requested (folders_list "folders/111" None) st' = false
    /\ requested (projects_getIamPolicy "p5") st' = false
    /\ no_file st'.
Proof.
  rewrite run_unfold. cbn zeta.
  simpl (api_organizations_get _ _ _).
  unfold collect.
  unfold bind at 1. unfold bind at 1.
  erewrite projects_loop_last_page by reflexivity.
  step. cbn [Py.truthy].
  unfold org_policy. step. simpl (api_organizations_getIamPolicy _ _ _).
  unfold flatten at 1. cbn [bindings default for_each]. step.
  erewrite walk_pop by reflexivity.
  unfold bind at 1.
  erewrite list_loop_last_page by reflexivity.
  match goal with
  | |- context [for_each ?xs (visit_folder ?a) ?s] =>
      let v := eval vm_compute in (for_each xs (visit_folder a) s) in
      change (for_each xs (visit_folder a) s) with v
  end.
  cbn iota.
  erewrite (walk_refused _ _ _ _ sibling_refused_listing) by reflexivity.
  eexists. split; [reflexivity|].
  repeat split; vm_compute; reflexivity.
Qed.

(** C3 (the code at the failing input).  The organization has two folders,
    111 and 222, and listing the children of 222 is refused every time.
    Whatever the fuel, the run is still retrying that listing when the fuel
    is gone: it never ends, the children of the sibling folder 111 are
    never listed, the project under 111 is never looked at, and the report
    is never written. *)
Theorem C3_walk_never_ends_when_a_listing_keeps_failing fuel :
  let m := main Scenario.sibling_refused fuel "123" None "iam_members.csv" in
  fst m = None
  /\ requested (folders_list "folders/111" None) (snd m) = false
  /\ requested (projects_getIamPolicy "p5") (snd m) = false
  /\ no_file (snd m).
Proof.
  destruct fuel as [|[|[|n]]]; try (vm_compute; repeat split; reflexivity).
  intros m. subst m. unfold main.
  destruct (sibling_refused_run n) as (st' & -> & H1 & H2 & H3).
  cbn [fst snd]. split; [reflexivity|].
  rewrite !failed_attempts_requested by discriminate.
  split; [exact H1|]. split; [exact H2|].
  now apply failed_attempts_no_file.
Qed.

(** * Further properties of the script *)

(** ** What flattening appends *)

Lemma split_first_separator sep a b :
  Py.count sep a = 0 ->
  Py.split sep (a +:+ String sep b) = a :: Py.split sep b.
Proof.
  induction a as [|c a IH]; simpl.
  - now rewrite Ascii.eqb_refl.
  - destruct (Ascii.eqb c sep); simpl; [discriminate|].
    intros H. now rewrite (IH H).
Qed.

Lemma member_row_well_formed mk binding typ mem :
  Py.count ":" typ = 0 -> Py.count ":" mem = 0 ->
  member_row mk binding (typ +:+ ":" +:+ mem) = mk mem typ (role binding).
Proof.
  intros Ht Hm. unfold member_row.
  change (typ +:+ ":" +:+ mem) with (typ +:+ String ":" mem).
  rewrite (split_first_separator _ _ _ Ht), (split_no_separator _ _ Hm).
  reflexivity.
Qed.

Lemma flatten_member_row mk binding member st :
  well_formed_member member ->
  flatten_member mk binding member st
  = (Ret tt, set_final_results
               (final_results st ++ [member_row mk binding member]) st).
Proof.
  intros H. destruct (split_one_separator _ _ H) as (typ & mem & Hs & _).
  unfold flatten_member, member_row, bind. now rewrite Hs.
Qed.

Lemma members_loop_rows mk binding ms : forall st,
  Forall well_formed_member ms ->
  for_each ms (flatten_member mk binding) st
  = (Ret tt, set_final_results
               (final_results st ++ map (member_row mk binding) ms) st).
Proof.
  induction ms as [|m ms IH]; intros st Hwf.
  - simpl. unfold ret. now rewrite append_nothing.
  - inversion Hwf as [|? ? Hm Hms]; subst.
    simpl. unfold bind at 1. rewrite (flatten_member_row mk binding m st Hm).
    rewrite (IH _ Hms). simpl. now rewrite <- app_assoc.
Qed.

Lemma flatten_policy_rows mk iam st :
  well_formed_policy iam ->
  flatten iam mk st
  = (Ret tt, set_final_results (final_results st ++ policy_rows mk iam) st).
Proof.
  unfold flatten, policy_rows, well_formed_policy.
  generalize (default [] (bindings iam)) as bs. intros bs. revert st.
  induction bs as [|b bs IH]; intros st Hwf.
  - simpl. unfold ret. now rewrite append_nothing.
  - inversion Hwf as [|? ? Hb Hbs]; subst.
    simpl. unfold bind at 1. rewrite (members_loop_rows mk b _ st Hb).
    rewrite (IH _ Hbs). simpl. now rewrite <- app_assoc.
Qed.

(** On a well-formed policy, flattening appends the rows of the policy in
    the order of the document: binding after binding, member after member,
    each row with the role of its binding, the identifier after the colon
    as member and the type before it as member type. *)
Theorem flatten_appends_policy_rows mk iam st :
  well_formed_policy iam ->
  flatten iam mk st
  = (Ret tt, set_final_results (final_results st ++ policy_rows mk iam) st)
  /\ forall binding typ mem,
       Py.count ":" typ = 0 -> Py.count ":" mem = 0 ->
       member_row mk binding (typ +:+ ":" +:+ mem)
       = mk mem typ (role binding).
Proof.
  intros Hwf. split.
  - now apply flatten_policy_rows.
  - intros binding typ mem Ht Hm. now apply member_row_well_formed.
Qed.

Lemma flatten_appends_policy_rows_witness :
  let iam := Scenario.policy
               [("roles/owner", ["user:a@example.com"; "group:g@example.com"]);
                ("roles/viewer", ["user:b@example.com"])] in
  well_formed_policy iam
  /\ policy_rows (folder_row "456") iam
     = [folder_row "456" "a@example.com" "user" "roles/owner";
        folder_row "456" "g@example.com" "group" "roles/owner";
        folder_row "456" "b@example.com" "user" "roles/viewer"]
  /\ flatten iam (folder_row "456") initial
     = (Ret tt, set_final_results
                  (final_results initial ++ policy_rows (folder_row "456") iam)
                  initial).
Proof.
  intros iam.
  assert (Hwf : well_formed_policy iam).
  { unfold well_formed_policy, well_formed_member. simpl.
    repeat constructor. }
  split; [exact Hwf|]. split; [reflexivity|].
  exact (proj1 (flatten_appends_policy_rows (folder_row "456") iam initial Hwf)).
Defined.

(** ** The id of a listed folder *)

Lemma name_id_second_piece p i :
  Py.count "/" p = 0 -> Py.count "/" i = 0 ->
  name_id (p +:+ "/" +:+ i) = Some i.
Proof.
  intros Hp Hi. unfold name_id.
  change (p +:+ "/" +:+ i) with (p +:+ String "/" i).
  now rewrite (split_first_separator _ _ _ Hp), (split_no_separator _ _ Hi).
Qed.

(** A listed folder whose name has no slash raises an [IndexError] before
    anything is done with it.  A folder named [prefix/id] gets the id
    [id]; it is pushed on the stack and its id recorded before its policy
    is read, so both hold whatever becomes of the policy request. *)
Theorem visit_folder_id api fname st :
  (Py.count "/" fname = 0 ->
   visit_folder api (mkFolder fname) st = (Raise IndexError, st))
  /\ (forall p i,
        fname = p +:+ "/" +:+ i ->
        Py.count "/" p = 0 -> Py.count "/" i = 0 ->
        name_id fname = Some i
        /\ stack (snd (visit_folder api (mkFolder fname) st))
           = fname :: stack st
        /\ folders (snd (visit_folder api (mkFolder fname) st))
           = {[i]} ∪ folders st).
Proof.
  split.
  - intros H. unfold visit_folder. step. cbn [folder_name].
    now rewrite (split_no_separator _ _ H).
  - intros p i -> Hp Hi.
    pose proof (name_id_second_piece p i Hp Hi) as Hid.
    split; [exact Hid|].
    unfold visit_folder. step. cbn [folder_name].
    unfold name_id in Hid. rewrite Hid.
    set (st1 := set_folders _ (set_stack _ st)).
    destruct (api_folders_getIamPolicy api (clock st1) _) as [iam|e].
    + destruct (flatten_appends (folder_row i) iam
                  (tick (emit (Call (folders_getIamPolicy
                                       (p +:+ "/" +:+ i)) None) st1)))
        as (rows & -> & _).
      now split.
    + now split.
Qed.

(** ** The project listing *)

Lemma projects_loop_pages api tok ps n :
  project_pages api tok ps n ->
  forall fuel acc st,
    n <= fuel ->
    exists st',
      projects_loop api fuel tok acc st = (Ret (acc ++ ps), st')
      /\ clock st' = clock st + n
      /\ _ERROR st' = _ERROR st
      /\ final_results st' = final_results st.
Proof.
  induction 1 as [tok page Hpage Hnext|tok page tok' rest n Hpage Hnext _ IH];
    intros fuel acc st Hfuel.
  - destruct fuel as [|fuel]; [lia|].
    rewrite (projects_loop_last_page api fuel tok acc page st (Hpage _) Hnext).
    eexists. split; [reflexivity|]. simpl. repeat split. lia.
  - destruct fuel as [|fuel]; [lia|].
    cbn [projects_loop]. step.
    change (clock (emit _ st)) with (clock st). rewrite Hpage, Hnext.
    destruct (IH fuel (acc ++ default [] (pp_projects page))
                (tick (emit (Call (projects_list tok) None)
                         (emit (Stdout "Getting projects...") st))))
      as (st' & Hrun & Hclock & HE & HR); [lia|].
    exists st'. rewrite Hrun, <- app_assoc. split; [reflexivity|].
    simpl in *. repeat split; try assumption. lia.
Qed.

(** The pages of the project listing are drained in order: when the API
    serves [n] pages from a token on, the loop returns what it had
    followed by the projects of all of them, after exactly [n] requests,
    and touches neither the flag nor the rows. *)
Theorem projects_loop_drains api tok ps n :
  project_pages api tok ps n ->
  forall fuel acc st,
    n <= fuel ->
    exists st',
      projects_loop api fuel tok acc st = (Ret (acc ++ ps), st')
      /\ clock st' = clock st + n
      /\ _ERROR st' = _ERROR st
      /\ final_results st' = final_results st.
Proof.
  intros Hpages fuel acc st Hfuel.
  destruct (projects_loop_pages api tok ps n Hpages fuel acc st Hfuel)
    as (st' & Hrun & Hclock & Hflag & Hrows).
  exists st'. repeat split; assumption.
Qed.

Lemma two_pages_listing :
  project_pages Scenario2.two_pages None [Scenario.p_org; Scenario.p_999] 2.
Proof.
  apply (project_pages_more Scenario2.two_pages None
           (mkProjectsPage (Some [Scenario.p_org]) (Some "t2")) "t2"
           [Scenario.p_999] 1); try reflexivity.
  apply (project_pages_last Scenario2.two_pages (Some "t2")
           (mkProjectsPage (Some [Scenario.p_999]) None)); reflexivity.
Defined.

Lemma projects_loop_drains_witness :
  project_pages Scenario2.two_pages None [Scenario.p_org; Scenario.p_999] 2
  /\ 2 <= 5
  /\ exists st',
       projects_loop Scenario2.two_pages 5 None [] initial
       = (Ret ([] ++ [Scenario.p_org; Scenario.p_999]), st')
       /\ clock st' = clock initial + 2
       /\ _ERROR st' = _ERROR initial
       /\ final_results st' = final_results initial.
Proof.
  split; [exact two_pages_listing|].
  assert (H : 2 <= 5) by lia. split; [exact H|].
  exact (projects_loop_drains Scenario2.two_pages None _ 2 two_pages_listing
           5 [] initial H).
Defined.

(** No handler surrounds the project listing: when its first request
    fails, the [HttpError] ends the process with status 1 and a traceback,
    the flag still unset, and nothing else has been requested or
    written. *)
Theorem project_listing_failure_is_fatal api fuel org_id folder_id outfile
    org e :
  api_organizations_get api 0 ("organizations/" +:+ org_id) = Ok org ->
  api_projects_list api 1 None = Err e ->
  0 < fuel ->
  let m := main api fuel org_id folder_id outfile in
  fst m = Some 1%Z
  /\ _ERROR (snd m) = None
  /\ log (snd m)
     = [Stdout "Validating organization...";
        Call (organizations_get ("organizations/" +:+ org_id)) None;
        Stdout "Getting projects...";
        Call (projects_list None) (Some e);
        Traceback (HttpError e)].
Proof.
  intros Horg Hlist Hfuel m. subst m. unfold main. rewrite run_unfold.
  cbn zeta. change (clock (emit _ (set_ERROR None initial))) with 0.
  rewrite Horg. destruct fuel as [|fuel]; [lia|].
  unfold collect. cbn [projects_loop]. step.
  change (clock (emit _ (tick _))) with 1. rewrite Hlist.
  repeat split.
Qed.

Lemma project_listing_failure_is_fatal_witness :
  api_organizations_get Scenario2.projects_refused 0
    ("organizations/" +:+ "123")
  = Ok (mkOrganization "organizations/123")
  /\ api_projects_list Scenario2.projects_refused 1 None = Err "500"
  /\ 0 < 5
  /\ let m := main Scenario2.projects_refused 5 "123" None "iam_members.csv" in
     fst m = Some 1%Z
     /\ _ERROR (snd m) = None
     /\ log (snd m)
        = [Stdout "Validating organization...";
           Call (organizations_get ("organizations/" +:+ "123")) None;
           Stdout "Getting projects...";
           Call (projects_list None) (Some "500");
           Traceback (HttpError "500")].
Proof.
  split; [reflexivity|]. split; [reflexivity|].
  assert (H : 0 < 5) by lia. split; [exact H|].
  exact (project_listing_failure_is_fatal Scenario2.projects_refused 5 "123"
           None "iam_members.csv" (mkOrganization "organizations/123") "500"
           eq_refl eq_refl H).
Defined.

(** ** The report *)

(** When [run] returns, the output file has been opened once, after
    everything else: the log ends with the line announcing the file, the
    opening of the file named on the command line, the header followed by
    exactly the rows of the result set, and the closing line; no file was
    touched before.  The line warning that the report may be inaccurate
    comes last, and only when the returned flag is set. *)
Theorem run_writes_report_last api fuel org_id folder_id outfile v :
  fst (run api fuel org_id folder_id outfile initial) = Ret v ->
  let st := snd (run api fuel org_id folder_id outfile initial) in
  exists before,
    log st
    = before
      ++ [Stdout ("Writing file " +:+ Py.dquote +:+ outfile +:+ Py.dquote);
          OpenFile outfile;
          WriteRows header (final_results st);
          Stdout "Done."]
      ++ (if is_true v then [Stdout caveat] else [])
    /\ existsb touches_file before = false.
Proof.
  rewrite run_unfold. cbn zeta.
  destruct (api_organizations_get api _ _) as [org|e]; [|discriminate].
  set (st1 := tick _).
  pose proof (collect_then_report (collect api fuel org org_id folder_id)
                outfile st1) as Hr.
  pose proof (no_file_collect api fuel org org_id folder_id st1 eq_refl) as Hc.
  destruct (fst (collect api fuel org org_id folder_id st1)).
  - destruct Hr as (Hv & _ & HR & HL). rewrite Hv. intros [= <-].
    exists (log (snd (collect api fuel org org_id folder_id st1))).
    rewrite HR. split; [exact HL|exact Hc].
  - rewrite Hr. discriminate.
  - rewrite Hr. discriminate.
Qed.

Lemma run_writes_report_last_witness :
  fst (run Scenario.folder_policy_refused 5 "123" None "iam_members.csv"
         initial) = Ret (Some true)
  /\ let st := snd (run Scenario.folder_policy_refused 5 "123" None
                      "iam_members.csv" initial) in
     exists before,
       log st
       = before
         ++ [Stdout ("Writing file " +:+ Py.dquote +:+ "iam_members.csv"
                     +:+ Py.dquote);
             OpenFile "iam_members.csv";
             WriteRows header (final_results st);
             Stdout "Done."]
         ++ (if is_true (Some true) then [Stdout caveat] else [])
       /\ existsb touches_file before = false.
Proof.
  assert (H : fst (run Scenario.folder_policy_refused 5 "123" None
                     "iam_members.csv" initial) = Ret (Some true))
    by reflexivity.
  split; [exact H|].
  exact (run_writes_report_last Scenario.folder_policy_refused 5 "123" None
           "iam_members.csv" (Some true) H).
Defined.

(** ** The project loop *)

Lemma process_project_rows api org_id answers project st :
  project_policies api answers ->
  exists st',
    process_project api org_id project st = (Ret tt, st')
    /\ final_results st'
       = final_results st ++ project_rows_of org_id (folders st) answers project
    /\ folders st' = folders st
    /\ _ERROR st'
       = if project_refused org_id (folders st) answers project
         then Some true else _ERROR st.
Proof.
  intros [Hans Hwf]. unfold process_project, project_rows_of, project_refused.
  step. destruct (selected org_id (folders st) project).
  - rewrite Hans.
    destruct (answers (projectId project)) as [iam|e] eqn:Ha.
    + rewrite (flatten_policy_rows
                 (project_row (projectId project)) iam
                 (tick (emit (Call (projects_getIamPolicy (projectId project))
                                None) st)) (Hwf _ _ Ha)).
      eexists. split; [reflexivity|]. now repeat split.
    + eexists. split; [reflexivity|]. simpl. rewrite app_nil_r.
      now repeat split.
  - exists st. rewrite app_nil_r. now repeat split.
Qed.

Lemma project_loop_state api org_id answers projects :
  project_policies api answers ->
  forall st,
    exists st',
      for_each projects (process_project api org_id) st = (Ret tt, st')
      /\ final_results st'
         = final_results st
           ++ flat_map (project_rows_of org_id (folders st) answers) projects
      /\ folders st' = folders st
      /\ _ERROR st'
         = if existsb (project_refused org_id (folders st) answers) projects
           then Some true else _ERROR st.
Proof.
  intros Hp. induction projects as [|p ps IH]; intros st.
  - exists st. simpl. rewrite app_nil_r. now repeat split.
  - destruct (process_project_rows api org_id answers p st Hp)
      as (st1 & Hrun & HR & HF & HE).
    destruct (IH st1) as (st2 & Hrest & HR2 & HF2 & HE2).
    exists st2. simpl. unfold bind at 1. rewrite Hrun.
    split; [exact Hrest|].
    rewrite HR2, HF2, HE2, HR, HF, HE, <- app_assoc.
    repeat split.
    destruct (project_refused org_id (folders st) answers p); simpl;
      [|reflexivity].
    destruct (existsb (project_refused org_id (folders st) answers) ps);
      reflexivity.
Qed.

(** With project policies that stay the same during the run, the project
    loop always runs to its end.  It appends, in the order of the listing,
    the rows of the policy of every project that is selected against the
    folder set it starts with and whose policy can be read; a project that
    is not selected, or whose policy cannot be read, adds nothing.  The
    folder set is left as it is, and the flag is set when some selected
    project's policy could not be read and otherwise left as it was. *)
Theorem project_loop_rows api org_id answers projects :
  project_policies api answers ->
  forall st,
    exists st',
      for_each projects (process_project api org_id) st = (Ret tt, st')
      /\ final_results st'
         = final_results st
           ++ flat_map (project_rows_of org_id (folders st) answers) projects
      /\ folders st' = folders st
      /\ _ERROR st'
         = if existsb (project_refused org_id (folders st) answers) projects
           then Some true else _ERROR st.
Proof.
  intros Hp st.
  destruct (project_loop_state api org_id answers projects Hp st)
    as (st' & Hloop & Hrows & Hfolders & Hflag).
  exists st'. repeat split; assumption.
Qed.

Lemma two_pages_project_policies :
  project_policies Scenario2.two_pages Scenario2.p1_answers.
Proof.
  split; [reflexivity|].
  intros pid iam. unfold Scenario2.p1_answers.
  destruct (bool_decide (pid = "p1")); [|discriminate].
  intros [= <-]. unfold well_formed_policy, well_formed_member. simpl.
  repeat constructor.
Defined.

Lemma project_loop_rows_witness :
  let st := set_folders {["999"]} initial in
  project_policies Scenario2.two_pages Scenario2.p1_answers
  /\ flat_map (project_rows_of "123" (folders st) Scenario2.p1_answers)
       [Scenario.p_org; Scenario.p_999; Scenario.p_orphan]
     = [project_row "p1" "b@example.com" "user" "roles/viewer"]
  /\ existsb (project_refused "123" (folders st) Scenario2.p1_answers)
       [Scenario.p_org; Scenario.p_999; Scenario.p_orphan] = true
  /\ exists st',
       for_each [Scenario.p_org; Scenario.p_999; Scenario.p_orphan]
         (process_project Scenario2.two_pages "123") st = (Ret tt, st')
       /\ final_results st'
          = final_results st
            ++ flat_map (project_rows_of "123" (folders st)
                           Scenario2.p1_answers)
                 [Scenario.p_org; Scenario.p_999; Scenario.p_orphan]
       /\ folders st' = folders st
       /\ _ERROR st'
          = if existsb (project_refused "123" (folders st)
                          Scenario2.p1_answers)
                 [Scenario.p_org; Scenario.p_999; Scenario.p_orphan]
            then Some true else _ERROR st.
Proof.
  intros st. split; [exact two_pages_project_policies|].
  split; [vm_compute; reflexivity|]. split; [vm_compute; reflexivity|].
  exact (project_loop_rows Scenario2.two_pages "123" Scenario2.p1_answers
           [Scenario.p_org; Scenario.p_999; Scenario.p_orphan]
           two_pages_project_policies st).
Defined.

(** ** The walk over a finite hierarchy *)

#[local] Set Warnings "-clear-no-such-hyp".

Lemma ids_app (a b : list string) : ids (a ++ b) = ids a ∪ ids b.
Proof. unfold ids. now rewrite omap_app, list_to_set_app_L. Qed.

Lemma ids_cons_some x i (l : list string) :
  name_id x = Some i -> ids (x :: l) = {[i]} ∪ ids l.
Proof. intros H. unfold ids. simpl. now rewrite H. Qed.

Lemma ids_children (children : list tree) :
  ids (flat_map (fun child => root child :: descendants child) children)
  = ids (map root children) ∪ ids (flat_map descendants children).
Proof.
  induction children as [|k ks IH]; simpl; [set_solver|].
  change (root k :: descendants k ++
          flat_map (fun child => root child :: descendants child) ks)
    with ([root k] ++ descendants k ++
          flat_map (fun child => root child :: descendants child) ks).
  change (root k :: map root ks) with ([root k] ++ map root ks).
  rewrite !ids_app, IH. set_solver.
Qed.

Lemma ids_rev_forest (forest : list tree) :
  ids (flat_map descendants (rev forest)) = ids (flat_map descendants forest).
Proof.
  induction forest as [|t ts IH]; simpl; [reflexivity|].
  rewrite flat_map_app, !ids_app, IH. simpl. rewrite app_nil_r. set_solver.
Qed.

Lemma forest_size_app (a b : list tree) :
  forest_size (a ++ b) = forest_size a + forest_size b.
Proof.
  unfold forest_size. induction a as [|t a IH]; simpl; [reflexivity|].
  rewrite IH. lia.
Qed.

Lemma forest_size_rev (a : list tree) : forest_size (rev a) = forest_size a.
Proof.
  induction a as [|t a IH]; simpl; [reflexivity|].
  rewrite forest_size_app, IH. unfold forest_size. simpl. lia.
Qed.

Lemma visit_folder_returns api folder fid st :
  folder_policies_well_formed api ->
  name_id (folder_name folder) = Some fid ->
  exists st',
    visit_folder api folder st = (Ret tt, st')
    /\ stack st' = folder_name folder :: stack st
    /\ folders st' = {[fid]} ∪ folders st
    /\ exists rows, final_results st' = final_results st ++ rows.
Proof.
  intros Hwf Hid. unfold visit_folder. step.
  unfold name_id in Hid. rewrite Hid.
  set (st1 := set_folders _ (set_stack _ st)).
  destruct (api_folders_getIamPolicy api (clock st1) (folder_name folder))
    as [iam|e] eqn:Hiam.
  - rewrite (flatten_policy_rows (folder_row fid) iam
               (tick (emit (Call (folders_getIamPolicy (folder_name folder))
                              None) st1)) (Hwf _ _ _ Hiam)).
    eexists. split; [reflexivity|]. simpl. repeat split. eauto.
  - eexists. split; [reflexivity|]. simpl. repeat split.
    exists []. now rewrite app_nil_r.
Qed.

Lemma visit_folders_return api fs :
  folder_policies_well_formed api ->
  Forall (fun f => is_Some (name_id (folder_name f))) fs ->
  forall st,
    exists st',
      for_each fs (visit_folder api) st = (Ret tt, st')
      /\ stack st' = rev (map folder_name fs) ++ stack st
      /\ folders st' = ids (map folder_name fs) ∪ folders st
      /\ exists rows, final_results st' = final_results st ++ rows.
Proof.
  intros Hwf. induction 1 as [|f fs [fid Hid] _ IH]; intros st.
  - exists st. simpl. repeat split; [set_solver|].
    exists []. now rewrite app_nil_r.
  - destruct (visit_folder_returns api f fid st Hwf Hid)
      as (st1 & Hrun & HS & HF & rows1 & HR).
    destruct (IH st1) as (st2 & Hrest & HS2 & HF2 & rows2 & HR2).
    exists st2. simpl. unfold bind at 1. rewrite Hrun.
    split; [exact Hrest|]. rewrite HS2, HF2, HR2, HS, HF, HR.
    rewrite (ids_cons_some _ _ _ Hid), <- !app_assoc. simpl.
    repeat split; [set_solver|eauto].
Qed.

(** The inner loop drains the pages of one listing: every child is pushed
    (the last listed on top) and its id recorded. *)
Lemma list_loop_returns api current tok fs n :
  folder_pages api current tok fs n ->
  folder_policies_well_formed api ->
  Forall (fun f => is_Some (name_id (folder_name f))) fs ->
  forall fuel st,
    n <= fuel ->
    exists st',
      list_loop api fuel current tok st = (Ret tt, st')
      /\ stack st' = rev (map folder_name fs) ++ stack st
      /\ folders st' = ids (map folder_name fs) ∪ folders st
      /\ exists rows, final_results st' = final_results st ++ rows.
Proof.
  intros Hpages Hwf.
  induction Hpages as [tok page Hpage Hnext|tok page tok' rest n Hpage Hnext _ IH];
    intros Hids fuel st Hfuel.
  - destruct fuel as [|fuel]; [lia|].
    rewrite (list_loop_last_page api fuel current tok page st (Hpage _) Hnext).
    destruct (visit_folders_return api _ Hwf Hids
                (tick (emit (Call (folders_list current tok) None)
                         (emit (Stdout "Getting folders...") st))))
      as (st1 & Hrun & HS & HF & HR).
    exists st1. now repeat split.
  - destruct fuel as [|fuel]; [lia|].
    apply Forall_app in Hids as [Hids1 Hids2].
    cbn [list_loop]. step.
    change (clock (emit _ st)) with (clock st). rewrite Hpage.
    destruct (visit_folders_return api _ Hwf Hids1
                (tick (emit (Call (folders_list current tok) None)
                         (emit (Stdout "Getting folders...") st))))
      as (st1 & Hrun & HS & HF & rows1 & HR).
    rewrite Hrun, Hnext.
    destruct (IH Hids2 fuel st1) as (st2 & Hrest & HS2 & HF2 & rows2 & HR2);
      [lia|].
    exists st2. split; [exact Hrest|].
    rewrite HS2, HF2, HR2, HS, HF, HR. simpl.
    rewrite map_app, rev_app_distr, ids_app, <- !app_assoc.
    repeat split; [set_solver|eauto].
Qed.

Lemma walk_forest api w forest fuel st :
  Forall (hierarchy api w) forest ->
  folder_policies_well_formed api ->
  stack st = map root forest ->
  forest_size forest + w < fuel ->
  exists st',
    walk api fuel st = (Ret tt, st')
    /\ stack st' = []
    /\ folders st' = ids (flat_map descendants forest) ∪ folders st
    /\ exists rows, final_results st' = final_results st ++ rows.
Proof.
  intros Hh Hwf. remember (forest_size forest) as size eqn:Hsize.
  revert forest Hh Hsize fuel st.
  induction size as [size IH] using lt_wf_ind.
  intros forest Hh Hsize fuel st Hstack Hfuel.
  destruct fuel as [|fuel]; [lia|].
  destruct forest as [|[current children] rest].
  - exists st. cbn [walk]. step. rewrite Hstack. simpl.
    repeat split; [set_solver|]. exists []. now rewrite app_nil_r.
  - simpl in Hstack.
    rewrite (walk_pop api fuel current (map root rest) st Hstack).
    inversion Hh as [|? ? Hnode Hrest]; subst.
    inversion Hnode as [? ? fs n Hpages Hn Hnames Hids Hkids]; subst.
    unfold forest_size in Hfuel. simpl in Hfuel.
    fold (forest_size children) in Hfuel. fold (forest_size rest) in Hfuel.
    destruct (list_loop_returns api current None fs n Hpages Hwf Hids fuel
                (set_stack (map root rest) st))
      as (st1 & Hrun & HS & HF & rows1 & HR); [lia|].
    unfold bind at 1. rewrite Hrun.
    destruct (IH (forest_size (rev children ++ rest))) with
      (forest := rev children ++ rest) (fuel := fuel) (st := st1)
      as (st2 & Hwalk & HS2 & HF2 & rows2 & HR2).
    + rewrite forest_size_app, forest_size_rev.
      unfold forest_size at 3. simpl.
      fold (forest_size children). fold (forest_size rest). lia.
    + apply Forall_app. split; [now apply Forall_rev|exact Hrest].
    + reflexivity.
    + rewrite HS, Hnames, map_app, map_rev. reflexivity.
    + rewrite forest_size_app, forest_size_rev. lia.
    + exists st2. split; [exact Hwalk|]. split; [exact HS2|].
      rewrite HF2, HF, HR2, HR. simpl.
      rewrite flat_map_app, !ids_app, ids_rev_forest, ids_children, Hnames.
      rewrite <- app_assoc. split; [set_solver|eauto].
Qed.

(** When the API serves a finite hierarchy and no listing fails, the walk
    ends with an empty stack, given fuel for one turn per node and for the
    pages of a listing.  The folder set has grown by exactly the ids of
    the folders strictly below the nodes the stack started with: the start
    nodes themselves are not added.  Rows are only appended.  Folder
    policies may fail to be read: the folder is walked all the same. *)
Theorem walk_visits_hierarchy api w forest fuel st :
  Forall (hierarchy api w) forest ->
  folder_policies_well_formed api ->
  stack st = map root forest ->
  forest_size forest + w < fuel ->
  exists st',
    walk api fuel st = (Ret tt, st')
    /\ stack st' = []
    /\ folders st' = ids (flat_map descendants forest) ∪ folders st
    /\ exists rows, final_results st' = final_results st ++ rows.
Proof.
  intros Hh Hwf Hstack Hfuel.
  destruct (walk_forest api w forest fuel st Hh Hwf Hstack Hfuel)
    as (st' & Hwalk & Hempty & Hfolders & Hrows).
  exists st'. repeat split; assumption.
Qed.

Lemma small_org_hierarchy : hierarchy Scenario.small_org 1 Scenario2.small_tree.
Proof.
  apply (hierarchy_node Scenario.small_org 1 "organizations/123"
           [Node "folders/456" []] [mkFolder "folders/456"] 1).
  - apply (folder_pages_last Scenario.small_org "organizations/123" None
             (mkFoldersPage (Some [mkFolder "folders/456"]) None));
      reflexivity.
  - lia.
  - reflexivity.
  - repeat constructor. now exists "456".
  - repeat constructor.
    apply (hierarchy_node Scenario.small_org 1 "folders/456" [] [] 1).
    + apply (folder_pages_last Scenario.small_org "folders/456" None
               (mkFoldersPage None None)); reflexivity.
    + lia.
    + reflexivity.
    + constructor.
    + constructor.
Defined.

Lemma small_org_folder_policies :
  folder_policies_well_formed Scenario.small_org.
Proof.
  intros t fname iam [= <-].
  unfold well_formed_policy, well_formed_member. simpl. repeat constructor.
Defined.

Lemma walk_visits_hierarchy_witness :
  let st := set_stack ["organizations/123"] initial in
  Forall (hierarchy Scenario.small_org 1) [Scenario2.small_tree]
  /\ folder_policies_well_formed Scenario.small_org
  /\ stack st = map root [Scenario2.small_tree]
  /\ forest_size [Scenario2.small_tree] + 1 < 5
  /\ ids (flat_map descendants [Scenario2.small_tree]) = {["456"]}
  /\ exists st',
       walk Scenario.small_org 5 st = (Ret tt, st')
       /\ stack st' = []
       /\ folders st'
          = ids (flat_map descendants [Scenario2.small_tree]) ∪ folders st
       /\ exists rows, final_results st' = final_results st ++ rows.
Proof.
  intros st.
  assert (H1 : Forall (hierarchy Scenario.small_org 1) [Scenario2.small_tree])
    by (repeat constructor; exact small_org_hierarchy).
  assert (H2 : forest_size [Scenario2.small_tree] + 1 < 5)
    by (vm_compute; lia).
  split; [exact H1|]. split; [exact small_org_folder_policies|].
  split; [reflexivity|]. split; [exact H2|].
  split; [vm_compute; reflexivity|].
  exact (walk_visits_hierarchy Scenario.small_org 1 [Scenario2.small_tree] 5 st
           H1 small_org_folder_policies eq_refl H2).
Defined.

(** ** What each part of the collection may request *)

Section Footprint.

Variable api : Client.
Variable P : State -> Prop.
Variable allowed : request -> Prop.
Variable good_row : Row -> Prop.

Hypothesis P_stdout : forall line st, P st -> P (emit (Stdout line) st).
Hypothesis P_stderr : forall line st, P st -> P (emit (Stderr line) st).
Hypothesis P_call : forall req err st,
  allowed req -> P st -> P (tick (emit (Call req err) st)).
Hypothesis P_flag : forall st, P st -> P (set_ERROR (Some true) st).
Hypothesis P_stack : forall v st, P st -> P (set_stack v st).
Hypothesis P_folders : forall v st, P st -> P (set_folders v st).
Hypothesis P_no_rows : forall st, P st -> P (set_final_results [] st).
Hypothesis P_rows : forall rows st,
  Forall good_row rows -> P st ->
  P (set_final_results (final_results st ++ rows) st).

Hypothesis allowed_folders_list : forall current tok,
  allowed (folders_list current tok).
Hypothesis allowed_folders_policy : forall fname,
  allowed (folders_getIamPolicy fname).
Hypothesis allowed_projects_list : forall tok, allowed (projects_list tok).
Hypothesis allowed_projects_policy : forall pid,
  allowed (projects_getIamPolicy pid).
Hypothesis folder_rows_good : forall fid mem typ rol,
  good_row (folder_row fid mem typ rol).
Hypothesis project_rows_good : forall pid mem typ rol,
  good_row (project_row pid mem typ rol).

Lemma fp_flatten iam mk :
  (forall mem typ rol, good_row (mk mem typ rol)) ->
  preserves P (flatten iam mk).
Proof.
  intros Hmk st HP.
  destruct (flatten_appends mk iam st) as (rows & -> & Hrows).
  apply P_rows; [|exact HP].
  eapply Forall_impl; [exact Hrows|].
  intros r (mem & typ & rol & ->). apply Hmk.
Qed.

Lemma fp_visit_folder folder : preserves P (visit_folder api folder).
Proof.
  intros st HP. unfold visit_folder. step.
  destruct (nth_error (Py.split "/" (folder_name folder)) 1) as [fid|];
    [|exact HP].
  set (st1 := set_folders _ (set_stack _ st)).
  assert (HP1 : P st1) by (apply P_folders, P_stack, HP).
  destruct (api_folders_getIamPolicy api (clock st1) (folder_name folder)).
  - apply fp_flatten; [apply folder_rows_good|]. now apply P_call.
  - apply P_stdout, P_flag. now apply P_call.
Qed.

Lemma fp_list_loop fuel : forall current tok,
  preserves P (list_loop api fuel current tok).
Proof.
  induction fuel as [|fuel IH]; intros current tok st HP; [exact HP|].
  cbn [list_loop]. step.
  set (st0 := emit (Stdout "Getting folders...") st).
  assert (HP0 : P st0) by now apply P_stdout.
  destruct (api_folders_list api (clock st0) current tok) as [page|e].
  - set (st1 := tick (emit (Call _ None) st0)).
    assert (HP1 : P st1) by now apply P_call.
    assert (Hfs : P (snd (for_each (default [] (fp_folders page))
                            (visit_folder api) st1))).
    { apply preserves_for_each; [|exact HP1].
      intros f _. apply fp_visit_folder. }
    destruct (for_each (default [] (fp_folders page)) (visit_folder api) st1)
      as [[[]|e|] st2]; simpl in Hfs; try exact Hfs.
    destruct (list_next (fp_nextPageToken page)); [now apply IH|exact Hfs].
  - apply IH. apply P_stderr, P_flag. now apply P_call.
Qed.

Lemma fp_walk fuel : preserves P (walk api fuel).
Proof.
  induction fuel as [|fuel IH]; intros st HP; [exact HP|].
  cbn [walk]. step.
  destruct (stack st) as [|current rest]; [exact HP|].
  assert (H1 : P (snd (list_loop api fuel current None (set_stack rest st))))
    by (apply fp_list_loop, P_stack, HP).
  destruct (list_loop api fuel current None (set_stack rest st))
    as [[[]|e|] st1]; simpl in H1; try exact H1.
  now apply IH.
Qed.

Lemma fp_projects_loop fuel : forall tok acc,
  preserves P (projects_loop api fuel tok acc).
Proof.
  induction fuel as [|fuel IH]; intros tok acc st HP; [exact HP|].
  cbn [projects_loop]. step.
  set (st0 := emit (Stdout "Getting projects...") st).
  assert (HP0 : P st0) by now apply P_stdout.
  destruct (api_projects_list api (clock st0) tok) as [page|e].
  - destruct (list_next (pp_nextPageToken page));
      [apply IH|]; now apply P_call.
  - now apply P_call.
Qed.

Lemma fp_process_project org_id project :
  preserves P (process_project api org_id project).
Proof.
  intros st HP. unfold process_project. step.
  destruct (selected org_id (folders st) project); [|exact HP].
  destruct (api_projects_getIamPolicy api (clock st) (projectId project)).
  - apply fp_flatten; [apply project_rows_good|]. now apply P_call.
  - apply P_stderr, P_flag. now apply P_call.
Qed.

(** Under a folder restriction the collection is: the project listing, the
    walk from the folder, the project loop. *)
Lemma fp_collect_restricted fuel org org_id folder_id :
  Py.truthy folder_id = true ->
  preserves P (collect api fuel org org_id folder_id).
Proof.
  intros Htruthy st HP. unfold collect. rewrite Htruthy. unfold bind at 1.
  pose proof (fp_projects_loop fuel None [] st HP) as H1.
  destruct (projects_loop api fuel None [] st) as [[ps|e|] st1];
    simpl in H1; try exact H1.
  step.
  set (st2 := set_stack _ (set_folders ∅ (set_final_results [] st1))).
  assert (H2 : P st2) by (apply P_stack, P_folders, P_no_rows, H1).
  pose proof (fp_walk fuel st2 H2) as H3.
  destruct (walk api fuel st2) as [[[]|e|] st3]; simpl in H3; try exact H3.
  apply preserves_for_each; [|now apply P_stdout].
  intros p _. apply fp_process_project.
Qed.

End Footprint.

Lemma forallb_snoc {A} (f : A -> bool) (l : list A) (x : A) :
  forallb f l = true -> f x = true -> forallb f (l ++ [x]) = true.
Proof. intros Hl Hx. rewrite forallb_app, Hl. simpl. now rewrite Hx. Qed.

Lemma grown_by_emit ok log0 ev st :
  ok ev = true -> grown_by ok log0 st -> grown_by ok log0 (emit ev st).
Proof.
  intros Hev (evs & Hlog & Hok). exists (evs ++ [ev]). simpl.
  rewrite Hlog, <- app_assoc. split; [reflexivity|].
  now apply forallb_snoc.
Qed.

(** The walk shows nothing to the outside but progress and error lines,
    folder listings and folder policy requests, added after what was
    there: it never lists projects, never asks for the policy of the
    organization or of a project, and never touches the output file. *)
Theorem walk_only_reads_folders api fuel st :
  exists evs,
    log (snd (walk api fuel st)) = log st ++ evs
    /\ forallb walk_event evs = true.
Proof.
  apply (fp_walk api (grown_by walk_event (log st))
           (fun req => walk_event (Call req None) = true) (fun _ => True)).
  - intros. now apply grown_by_emit.
  - intros. now apply grown_by_emit.
  - intros req err st' Hreq H.
    apply (grown_by_emit walk_event (log st) (Call req err)) in H;
      [exact H|now destruct req].
  - intros st' H. exact H.
  - intros v st' H. exact H.
  - intros v st' H. exact H.
  - intros rows st' _ H. exact H.
  - intros. reflexivity.
  - intros. reflexivity.
  - intros. exact I.
  - exists []. now rewrite app_nil_r.
Qed.

Lemma requested_snoc req ev st :
  requested req (emit ev st)
  = requested req st
    || match ev with Call r _ => bool_decide (r = req) | _ => false end.
Proof. unfold requested. simpl. apply existsb_snoc. Qed.

Lemma restricted_collect_no_org_policy api fuel org org_id folder_id name :
  Py.truthy folder_id = true ->
  preserves (fun st => requested (organizations_getIamPolicy name) st = false)
            (collect api fuel org org_id folder_id).
Proof.
  intros Htruthy.
  apply (fp_collect_restricted api _
           (fun req => req <> organizations_getIamPolicy name)
           (fun _ => True)); auto; try discriminate.
  - intros line st H. now rewrite requested_snoc, H.
  - intros line st H. now rewrite requested_snoc, H.
  - intros req err st Hreq H.
    change (requested (organizations_getIamPolicy name)
              (emit (Call req err) st) = false).
    rewrite requested_snoc, H. simpl. now apply bool_decide_eq_false_2.
Qed.

Lemma restricted_collect_no_org_rows api fuel org org_id folder_id :
  Py.truthy folder_id = true ->
  preserves (fun st => Forall (fun r => r_org_id r = EmptyString)
                         (final_results st))
            (collect api fuel org org_id folder_id).
Proof.
  intros Htruthy.
  apply (fp_collect_restricted api _ (fun _ => True)
           (fun r => r_org_id r = EmptyString)); auto.
  intros rows st Hrows Hst. simpl. apply Forall_app. now split.
Qed.

(** Under a folder restriction the organization's own policy stays out of
    the report: at every point of the run, no policy of any organization
    has been requested and no row has its [org_id] field filled. *)
Theorem restricted_run_leaves_organization_out api fuel org_id folder_id
    outfile :
  Py.truthy folder_id = true ->
  let st := snd (run api fuel org_id folder_id outfile initial) in
  (forall name, requested (organizations_getIamPolicy name) st = false)
  /\ Forall (fun r => r_org_id r = EmptyString) (final_results st).
Proof.
  intros Htruthy. cbn zeta. rewrite run_unfold. cbn zeta.
  destruct (api_organizations_get api _ _) as [org|e];
    [|split; [reflexivity|constructor]].
  set (st1 := tick _).
  pose proof (collect_then_report (collect api fuel org org_id folder_id)
                outfile st1) as Hr.
  assert (H1 : forall name,
            requested (organizations_getIamPolicy name)
              (snd (collect api fuel org org_id folder_id st1)) = false).
  { intros name. now apply restricted_collect_no_org_policy. }
  assert (H2 : Forall (fun r => r_org_id r = EmptyString)
                 (final_results
                    (snd (collect api fuel org org_id folder_id st1)))).
  { apply restricted_collect_no_org_rows; [exact Htruthy|constructor]. }
  destruct (fst (collect api fuel org org_id folder_id st1)).
  - destruct Hr as (_ & _ & HR & HL). rewrite HR. split; [|exact H2].
    intros name. specialize (H1 name). unfold requested in *.
    rewrite HL, !existsb_app, H1. simpl.
    now destruct (is_true _).
  - rewrite Hr. now split.
  - rewrite Hr. now split.
Qed.

Lemma restricted_run_leaves_organization_out_witness :
  Py.truthy (Some "456") = true
  /\ let st := snd (run Scenario.small_org 5 "123" (Some "456")
                      "iam_members.csv" initial) in
     (forall name, requested (organizations_getIamPolicy name) st = false)
     /\ Forall (fun r => r_org_id r = EmptyString) (final_results st).
Proof.
  split; [reflexivity|].
  exact (restricted_run_leaves_organization_out Scenario.small_org 5 "123"
           (Some "456") "iam_members.csv" eq_refl).
Defined.

(** ** An empty folder argument *)

Lemma org_policy_message_unused api org org_id folder_id folder_id' st :
  (forall t e, api_organizations_getIamPolicy api t (org_name org) <> Err e) ->
  org_policy api org org_id folder_id st
  = org_policy api org org_id folder_id' st.
Proof.
  intros Hok. unfold org_policy. step.
  destruct (api_organizations_getIamPolicy api (clock st) (org_name org))
    as [iam|e] eqn:H; [reflexivity|].
  now apply Hok in H.
Qed.

Lemma bind_ext {A B} (m : M A) (k1 k2 : A -> M B) st :
  (forall a st', k1 a st' = k2 a st') -> bind m k1 st = bind m k2 st.
Proof. intros H. unfold bind. destruct (m st) as [[a|e|] st']; auto. Qed.

Lemma bind_same_start {A B} (m1 m2 : M A) (k : A -> M B) st :
  m1 st = m2 st -> bind m1 k st = bind m2 k st.
Proof. intros H. unfold bind. now rewrite H. Qed.

(** [-f ''] is no restriction: as long as the organization's policy can be
    read, the run with an empty folder id is, step for step, the run
    without one. *)
Theorem empty_folder_is_no_restriction api fuel org_id outfile st :
  (forall t name e, api_organizations_getIamPolicy api t name <> Err e) ->
  run api fuel org_id (Some EmptyString) outfile st
  = run api fuel org_id None outfile st.
Proof.
  intros Hok. rewrite !run_unfold. cbn zeta.
  destruct (api_organizations_get api _ _) as [org|e]; [|reflexivity].
  set (st1 := tick _).
  assert (H : collect api fuel org org_id (Some EmptyString) st1
              = collect api fuel org org_id None st1).
  { unfold collect. apply bind_ext. intros ps st2.
    apply bind_ext. intros [] st3. cbn [Py.truthy].
    apply bind_same_start, bind_same_start.
    apply org_policy_message_unused. intros t e. apply Hok. }
  unfold bind. now rewrite H.
Qed.

Lemma empty_folder_is_no_restriction_witness :
  (forall t name e,
     api_organizations_getIamPolicy Scenario.small_org t name <> Err e)
  /\ run Scenario.small_org 5 "123" (Some EmptyString) "iam_members.csv"
       initial
     = run Scenario.small_org 5 "123" None "iam_members.csv" initial.
Proof.
  assert (H : forall t name e,
            api_organizations_getIamPolicy Scenario.small_org t name <> Err e)
    by (intros t name e; discriminate).
  split; [exact H|].
  exact (empty_folder_is_no_restriction Scenario.small_org 5 "123"
           "iam_members.csv" initial H).
Defined.

(** ** [LazyFileType] *)

(** [__call__] stores the string as [filename] before it checks anything,
    so [open] afterwards passes that string and the mode, buffering,
    encoding and errors of the constructor to the built-in [open].  It
    raises exactly when the mode contains [r] or [x] and the file does not
    exist, with a message naming the string: a mode for exclusive
    creation is accepted only for a file that is already there, and any
    other mode without looking at the file system. *)
Theorem lazy_file_type_call file_exists mode s :
  let self := fst (LazyFileType.call file_exists (LazyFileType.init mode) s) in
  let err := snd (LazyFileType.call file_exists (LazyFileType.init mode) s) in
  LazyFileType.open self
  = Some (LazyFileType.mk_open_args s mode (-1)%Z None None)
  /\ (err = None
      <-> (LazyFileType.contains "r" mode = false
           /\ LazyFileType.contains "x" mode = false)
          \/ file_exists s = true)
  /\ (err <> None -> err = Some (LazyFileType.no_such_file s)).
Proof.
  unfold LazyFileType.call. cbn [LazyFileType.set_filename
    LazyFileType._mode LazyFileType.init].
  destruct (LazyFileType.contains "r" mode);
    destruct (LazyFileType.contains "x" mode);
    destruct (file_exists s); simpl;
    (split; [reflexivity|]); (split; [|tauto]); split;
    first [ discriminate | (intros _; tauto)
          | (intros [[? ?]|?]; discriminate) | tauto ].
Qed.

(** The output argument of the command line is never rejected, whatever
    the file system holds: the value of [args.output] opens the string
    given after [-o], or [iam_members.csv] when there is none, in mode
    [w] with the default buffering, encoding and errors; and the default
    object is the one [__call__] would have made of the same string. *)
Theorem lazy_file_type_output file_exists arg :
  snd (LazyFileType.output file_exists arg) = None
  /\ (forall file_exists',
        LazyFileType.output file_exists' arg
        = LazyFileType.output file_exists arg)
  /\ LazyFileType.open (fst (LazyFileType.output file_exists arg))
     = Some (LazyFileType.mk_open_args
               (match arg with Some s => s | None => "iam_members.csv" end)
               "w" (-1)%Z None None)
  /\ LazyFileType.output file_exists None
     = LazyFileType.output file_exists (Some "iam_members.csv").
Proof.
  destruct arg as [s|].
  - split; [reflexivity|]. split; [intros fe; reflexivity|].
    split; reflexivity.
  - split; [reflexivity|]. split; [intros fe; reflexivity|].
    split; reflexivity.
Qed.

(** ** A whole run over a finite hierarchy *)








(** ** Which project policies are requested *)

Lemma process_project_requests api org_id project pid st :
  folders (snd (process_project api org_id project st)) = folders st
  /\ (requested (projects_getIamPolicy pid)
        (snd (process_project api org_id project st)) = true ->
      requested (projects_getIamPolicy pid) st = true
      \/ (selected org_id (folders st) project = true
          /\ projectId project = pid)).
Proof.
  unfold process_project. step.
  destruct (selected org_id (folders st) project); [|now split; auto].
  assert (Hcall : forall err,
            requested (projects_getIamPolicy pid)
              (emit (Call (projects_getIamPolicy (projectId project)) err) st)
            = true ->
            requested (projects_getIamPolicy pid) st = true
            \/ (true = true /\ projectId project = pid)).
  { intros err. rewrite requested_snoc. intros H.
    apply orb_true_iff in H as [H|H]; [now left|right].
    apply bool_decide_eq_true in H. injection H as H. now split. }
  destruct (api_projects_getIamPolicy api (clock st) (projectId project))
    as [iam|e].
  - destruct (flatten_appends (project_row (projectId project)) iam
                (tick (emit (Call (projects_getIamPolicy (projectId project))
                               None) st))) as (rows & -> & _).
    split; [reflexivity|]. exact (Hcall None).
  - split; [reflexivity|]. simpl. intros H. apply (Hcall (Some e)).
    unfold requested in *. simpl in *.
    rewrite existsb_snoc in H. simpl in H. now rewrite orb_false_r in H.
Qed.

(** The project loop asks for the policy of selected projects only:
    whatever the API answers and however the loop ends, a project policy
    that has been requested after the loop either had been requested
    before it, or belongs to a listed project that is selected against
    the folder set the loop started with. *)
Theorem project_loop_requests_selected_only api org_id projects pid : forall st,
  requested (projects_getIamPolicy pid)
    (snd (for_each projects (process_project api org_id) st)) = true ->
  requested (projects_getIamPolicy pid) st = true
  \/ exists p, p ∈ projects
               /\ selected org_id (folders st) p = true
               /\ projectId p = pid.
Proof.
  induction projects as [|p ps IH]; intros st; [now left|].
  simpl. unfold bind at 1.
  destruct (process_project_requests api org_id p pid st) as [HF Hreq].
  destruct (process_project api org_id p st) as [[[]|e|] st1];
    simpl in HF, Hreq |- *.
  - intros H. apply IH in H as [H|(q & Hq & Hsel & Hpid)].
    + apply Hreq in H as [H|[Hsel Hpid]]; [now left|right].
      exists p. split; [left|now split].
    + right. exists q. rewrite HF in Hsel. split; [now right|now split].
  - intros H. apply Hreq in H as [H|[Hsel Hpid]]; [now left|right].
    exists p. split; [left|now split].
  - intros H. apply Hreq in H as [H|[Hsel Hpid]]; [now left|right].
    exists p. split; [left|now split].
Qed.

Lemma project_loop_requests_selected_only_witness :
  requested (projects_getIamPolicy "p1")
    (snd (for_each [Scenario.p_orphan; Scenario.p_org]
            (process_project Scenario2.two_pages "123") initial)) = true
  /\ requested (projects_getIamPolicy "p3")
       (snd (for_each [Scenario.p_orphan; Scenario.p_org]
               (process_project Scenario2.two_pages "123") initial)) = false
  /\ (requested (projects_getIamPolicy "p1") initial = true
      \/ exists p, p ∈ [Scenario.p_orphan; Scenario.p_org]
                   /\ selected "123" (folders initial) p = true
                   /\ projectId p = "p1").
Proof.
  assert (H : requested (projects_getIamPolicy "p1")
                (snd (for_each [Scenario.p_orphan; Scenario.p_org]
                        (process_project Scenario2.two_pages "123") initial))
              = true) by reflexivity.
  split; [exact H|]. split; [reflexivity|].
  exact (project_loop_requests_selected_only Scenario2.two_pages "123"
           [Scenario.p_orphan; Scenario.p_org] "p1" initial H).
Defined.
